(** * SourceForgeSpeedTest: the probing-and-selection engine of [main.go]

    A shallow embedding of the measurement, filtering, ranking and
    publication code of [main.go], and the properties of it that the
    specification states.

    Conventions of the embedding.
    - Go's [int] is a 64-bit signed integer: values are in [Z] and the
      arithmetic the code performs is wrapped by [wrap64].
    - The network is an input: what [ping.NewPinger], [Run] and
      [Statistics], and [http.Get], produce for a host is read from a
      [Net].  Every goroutine of a measurement pass has a [Net] of its
      own (indexed by its position [i] in the slice), so two probes of
      one host may differ.
    - The goroutines of a pass write to distinct slice elements and are
      joined by [wg.Wait()]; the pass is therefore the element-wise map
      of the goroutine body over the slice.
    - [sort.Sort] belongs to the Go library; it is a parameter
      ([sort.Impl]) constrained by its documented contract. *)

From Stdlib Require Import Ascii ZArith Floats Lia.
From stdpp Require Import base list strings gmap sorting.

Local Open Scope Z_scope.

(** * Part I: the program *)

(** ** Machine integers *)

Definition wrap64 (z : Z) : Z := (z + 2 ^ 63) mod 2 ^ 64 - 2 ^ 63.

Definition int_range (z : Z) : Prop := - 2 ^ 63 <= z < 2 ^ 63.

(** ** Data model *)

(** [type Domain struct { Name string; Latency int; Download int; DownloadErr bool }] *)
Record Domain := mkDomain {
  Name : string;
  Latency : Z;
  Download : Z;
  DownloadErr : bool
}.

Definition setLatency (latency : Z) (d : Domain) : Domain :=
  mkDomain (Name d) latency (Download d) (DownloadErr d).

Definition setDownload (speed : Z) (d : Domain) : Domain :=
  mkDomain (Name d) (Latency d) speed (DownloadErr d).

Definition setDownloadErr (b : bool) (d : Domain) : Domain :=
  mkDomain (Name d) (Latency d) (Download d) b.

(** The comparison of [Less], on the two elements it reads. *)
Definition lowerLatency (x y : Domain) : bool := Latency x <? Latency y.

(** [type ByLatency []Domain] with the methods of [sort.Interface].
    [sort.Sort] passes indices below [Len] only; elsewhere (where Go
    panics) [Less] is [false] and [Swap] changes nothing. *)
Module ByLatency.

Definition Len (a : list Domain) : nat := length a.

Definition Less (a : list Domain) (i j : nat) : bool :=
  match a !! i, a !! j with
  | Some x, Some y => lowerLatency x y
  | _, _ => false
  end.

Definition Swap (a : list Domain) (i j : nat) : list Domain :=
  match a !! i, a !! j with
  | Some x, Some y => <[i:=y]> (<[j:=x]> a)
  | _, _ => a
  end.

End ByLatency.

(** The error values the two measurement functions return. *)
Inductive error :=
  | ErrNewPinger      (* the error of ping.NewPinger *)
  | ErrRun            (* the error of pinger.Run *)
  | ErrPacketLoss     (* fmt.Errorf: packet loss detected *)
  | ErrNodeAbnormal.  (* fmt.Errorf: node state abnormal *)

(** ** The network, as the code observes it *)

(** The two fields of [ping.Statistics] that [tping] reads: [PacketLoss]
    is a [float64], [AvgRtt] a [time.Duration] (nanoseconds, [int64]). *)
Record Statistics := mkStatistics {
  PacketLoss : float;
  AvgRtt : Z
}.

Inductive PingerResult :=
  | NewPingerFails
  | RunFails
  | RunReturns (stats : Statistics).

(** One [http.Get] of a download goroutine: a transport error, or a
    response after [elapsed] milliseconds
    ([time.Since(start).Milliseconds()]). *)
Inductive GetResult :=
  | GetFails
  | GetReturns (elapsed : Z).

Record Net := mkNet {
  pinger : string -> PingerResult;
  httpGet : string -> nat -> GetResult
}.

(** [func (d Duration) Milliseconds() int64 { return int64(d) / 1e6 }] *)
Definition Milliseconds (d : Z) : Z := d `quot` 1000000.

(** ** [tping] *)

Definition tping (n : Net) (domain : string) : Z * option error :=
  match pinger n domain with
  | NewPingerFails => (-1, Some ErrNewPinger)
  | RunFails => (-1, Some ErrRun)
  | RunReturns stats =>
      if (0 <? PacketLoss stats)%float
      then (-1, Some ErrPacketLoss)
      else (Milliseconds (AvgRtt stats), None)
  end.

(** ** [download] *)

Section Download.

(** The [-threads] flag. *)
Variable threads : Z.

(** What a download goroutine sends on [speedCh]. *)
Definition sent (r : GetResult) : Z :=
  match r with
  | GetFails => -1
  | GetReturns elapsed => elapsed
  end.

(** [for i := 0; i < threads; i++ { go func() {...}() }] *)
Definition attempts (n : Net) (domain : string) : list GetResult :=
  httpGet n domain <$> seq 0 (Z.to_nat threads).

(** One iteration of [for speed := range speedCh], on
    [(totalSpeed, count)]. *)
Definition receive (acc : Z * Z) (speed : Z) : Z * Z :=
  if speed =? -1 then acc
  else (wrap64 (acc.1 + speed), wrap64 (acc.2 + 1)).

(** The receiving loop and the two returns, for the values received on
    [speedCh] in the order they arrive. *)
Definition download_recv (speedCh : list Z) : Z * option error :=
  let acc := foldl receive (0, 0) speedCh in
  if acc.2 =? 0 then (-1, Some ErrNodeAbnormal)
  else (wrap64 (acc.1 `quot` acc.2), None).

(** The values arrive in some order; [download] takes the order of the
    goroutines (the sum and the count do not depend on it). *)
Definition download (n : Net) (domain : string) : Z * option error :=
  download_recv (sent <$> attempts n domain).

End Download.

(** ** Outcomes of code that may stop the process *)

Inductive outcome (A : Type) :=
  | Returns (a : A)
  | OsExit (code : Z)       (* os.Exit(code) *)
  | Panics.                 (* runtime error: index out of range *)
Arguments Returns {A} a.
Arguments OsExit {A} code.
Arguments Panics {A}.

#[global] Instance outcome_bind : MBind outcome := fun A B k m =>
  match m with
  | Returns a => k a
  | OsExit code => OsExit code
  | Panics => Panics
  end.

(** [domains[0]]: the bounds check of the index expression. *)
Definition index0 (domains : list Domain) : outcome Domain :=
  match domains with
  | [] => Panics
  | d :: _ => Returns d
  end.

(** ** [sort.Sort], by its contract *)

Module sort.

(** [sort.Sort(ByLatency(domains))]: the slice is permuted, and
    afterwards no element is [Less] than one before it.  The library
    promises no more (it has [sort.Stable] for stability). *)
Record Impl := mkImpl {
  Sort : list Domain -> list Domain;
  Sort_perm : forall a, Sort a ≡ₚ a;
  Sort_ordered : forall a i j,
    (i < j)%nat -> (j < ByLatency.Len (Sort a))%nat ->
    ByLatency.Less (Sort a) j i = false
}.

End sort.

(** ** The measurement passes *)

Section Measure.

Variable threads : Z.

(** The goroutine body of [updateDomainsLatency], for the element at
    index [i]. *)
Definition probe (n : Net) (d : Domain) : Domain :=
  let '(latency, _) := tping n (Name d) in
  setLatency latency d.

Definition updateDomainsLatency (net : nat -> Net) (domains : list Domain)
  : list Domain :=
  imap (fun i d => probe (net i) d) domains.

(** The goroutine body of [measureLatencyAndDownload]. *)
Definition probeAndDownload (n : Net) (d : Domain) : Domain :=
  let '(latency, _) := tping n (Name d) in
  let d := setLatency latency d in
  if negb (latency =? -1) then
    match download threads n (Name d) with
    | (_, Some _) => setDownloadErr true d
    | (downloadSpeed, None) => setDownload downloadSpeed d
    end
  else d.

Definition excludeDownloadError (domains : list Domain) : list Domain :=
  filter (fun d => DownloadErr d = false) domains.

(** The state of the slice at [wg.Wait()], before the filter. *)
Definition measured (net : nat -> Net) (domains : list Domain) : list Domain :=
  imap (fun i d => probeAndDownload (net i) d) domains.

Definition measureLatencyAndDownload (net : nat -> Net) (domains : list Domain)
  : list Domain :=
  excludeDownloadError (measured net domains).

End Measure.

(** ** Files and the refresh cycle *)

(** The readable files are a finite map from file name to the lines
    [bufio.Scanner] yields; [os.Open] fails on any other name. *)
Definition readDomainsFromFile (fs : gmap string (list string)) (filename : string)
  : outcome (list Domain) :=
  match fs !! filename with
  | None => OsExit 1
  | Some lines => Returns ((fun text => mkDomain text 0 0 false) <$> lines)
  end.

(** The package-level variables the handlers read. *)
Record Globals := mkGlobals {
  multifastestdomain : string;
  singlefastestdomain : string;
  allfastestdomain : string
}.

(** Go's zero values. *)
Definition zeroGlobals : Globals := mkGlobals EmptyString EmptyString EmptyString.

(** What one refresh cycle meets: the files, the network during the pass
    over the main list, and the network during the pass over the list
    read from each file. *)
Record Cycle := mkCycle {
  files : gmap string (list string);
  netAll : nat -> Net;
  netOf : string -> nat -> Net
}.

Section Refresh.

Variable threads : Z.
Variable sorter : sort.Impl.

(** The slice of [findFastestDomain] after [sort.Sort]: the ranked
    result of a list. *)
Definition ranked (net : nat -> Net) (domains : list Domain) : list Domain :=
  sort.Sort sorter (measureLatencyAndDownload threads net domains).

Definition findFastestDomain (c : Cycle) (filename : string) : outcome string :=
  domains ← readDomainsFromFile (files c) filename;
  d ← index0 (ranked (netOf c filename) domains);
  Returns (Name d).

(** A step that may stop the process, taken with the variables as
    [vars]: its value goes to what follows, and if it stops, the
    variables stay as they are at that point. *)
Definition orStop {A V : Type} (m : outcome A) (vars : V)
    (next : A -> outcome unit * V) : outcome unit * V :=
  match m with
  | Returns a => next a
  | OsExit code => (OsExit code, vars)
  | Panics => (Panics, vars)
  end.

(** [updateAndStoreFastestDomains(&domains)]: how the call ends, and the
    three variables and the slice of the caller as they are when it
    ends.  The slice is probed and sorted in place, and each variable is
    assigned as soon as its value is there, so a call that panics or
    exits leaves what it has stored until then. *)
Definition updateAndStoreFastestDomains (c : Cycle) (g : Globals) (domains : list Domain)
  : outcome unit * (Globals * list Domain) :=
  let domains := updateDomainsLatency (netAll c) domains in
  let domains := sort.Sort sorter domains in
  orStop (index0 domains) (g, domains) (fun d =>
  let g := mkGlobals (multifastestdomain g) (singlefastestdomain g) (Name d) in
  orStop (findFastestDomain c "multi.txt") (g, domains) (fun multi =>
  let g := mkGlobals multi (singlefastestdomain g) (allfastestdomain g) in
  orStop (findFastestDomain c "single.txt") (g, domains) (fun single =>
  let g := mkGlobals (multifastestdomain g) single (allfastestdomain g) in
  (Returns tt, (g, domains))))).

End Refresh.

(** ** The process: [main] *)

(** The flags and everything the process meets while it runs: the files
    and the network of the [k]-th refresh cycle, and whether the [k]-th
    [r.Run(":" + port)] of [startGinServer] returns.  [gin]'s [Run]
    serves requests until it fails: it returns only with an error. *)
Record Env := mkEnv {
  flagVersion : bool;
  flagFile : string;
  flagThreads : Z;
  cycle : nat -> Cycle;
  ginRunReturns : nat -> bool
}.

(** Where the main goroutine is. *)
Inductive Loc :=
  | AtStart                  (* before [readDomainsFromFile(file)] *)
  | InGinRun (k : nat)       (* in [r.Run] of the [k]-th [startGinServer()] *)
  | AtTicker (k : nat)       (* at [for range ticker.C], [k] cycles done *)
  | Stopped (exit : option Z).  (* [os.Exit(code)], or [None] for a panic *)

Record Proc := mkProc {
  loc : Loc;
  globals : Globals;
  domains : list Domain;
  refreshes : nat            (* completed [updateAndStoreFastestDomains] *)
}.

Definition initial : Proc := mkProc AtStart zeroGlobals [] 0.

Definition stop (p : Proc) (exit : option Z) : Proc :=
  mkProc (Stopped exit) (globals p) (domains p) (refreshes p).

(** One call of [updateAndStoreFastestDomains(&domains)] followed by the
    entry into [startGinServer()].  When the call panics or exits, the
    process stops with the variables and the slice as the call left
    them. *)
Definition refresh (sorter : sort.Impl) (e : Env) (k : nat) (p : Proc) (ds : list Domain)
  : Proc :=
  match updateAndStoreFastestDomains (flagThreads e) sorter (cycle e k) (globals p) ds with
  | (Returns _, (g, ds')) => mkProc (InGinRun k) g ds' (S (refreshes p))
  | (OsExit code, (g, ds')) => mkProc (Stopped (Some code)) g ds' (refreshes p)
  | (Panics, (g, ds')) => mkProc (Stopped None) g ds' (refreshes p)
  end.

(** One step of the main goroutine.  In [r.Run] it stays where it is
    while the server serves; at the ticker the next tick arrives. *)
Definition step (sorter : sort.Impl) (e : Env) (p : Proc) : Proc :=
  match loc p with
  | AtStart =>
      if flagVersion e then stop p (Some 0)
      else match readDomainsFromFile (files (cycle e 0%nat)) (flagFile e) with
           | Returns ds => refresh sorter e 0 p ds
           | OsExit code => stop p (Some code)
           | Panics => stop p None
           end
  | InGinRun k =>
      if ginRunReturns e k then
        mkProc (AtTicker (S k)) (globals p) (domains p) (refreshes p)
      else p
  | AtTicker k => refresh sorter e k p (domains p)
  | Stopped _ => p
  end.

Definition run (sorter : sort.Impl) (e : Env) (n : nat) : Proc :=
  Nat.iter n (step sorter e) initial.

(** The three routes of [startGinServer] and the variable each handler
    passes to [buildRedirectURI]. *)
Inductive Route := RouteAll | RouteSingle | RouteMulti.

Definition handlerDomain (r : Route) (g : Globals) : string :=
  match r with
  | RouteAll => allfastestdomain g
  | RouteSingle => singlefastestdomain g
  | RouteMulti => multifastestdomain g
  end.

(** ** The redirect: [extractDomainAndPath], [buildRedirectURI], the handlers

    A Go string is a sequence of bytes, here a [string] of [ascii]. *)

(** [s[n:]], empty when [s] is shorter. *)
Fixpoint strSkip (n : nat) (s : string) : string :=
  match n, s with
  | O, _ => s
  | S n', String _ s' => strSkip n' s'
  | S _, EmptyString => EmptyString
  end.

(** [strings.Replace(s, old, new, 1)]: the first occurrence of [old],
    searched from the left, is replaced by [new]; without an occurrence
    [s] is returned. *)
Fixpoint Replace1 (s old new : string) : string :=
  if String.prefix old s then new +:+ strSkip (String.length old) s
  else match s with
       | EmptyString => EmptyString
       | String c s' => String c (Replace1 s' old new)
       end.

Definition buildRedirectURI (path domain : string) : string :=
  let redirectURI := "https://" +:+ domain +:+ "/" +:+ path +:+ "?viasf=1" in
  let redirectURI := Replace1 redirectURI "projects" "project" in
  let redirectURI := Replace1 redirectURI "/download" EmptyString in
  let redirectURI := Replace1 redirectURI "/files" EmptyString in
  redirectURI.

(** The characters of [s] before the first [stop], and [s] from the
    first [stop] on. *)
Fixpoint strBefore (stop : Ascii.ascii) (s : string) : string :=
  match s with
  | EmptyString => EmptyString
  | String c s' => if Ascii.eqb c stop then EmptyString else String c (strBefore stop s')
  end.

Fixpoint strFrom (stop : Ascii.ascii) (s : string) : string :=
  match s with
  | EmptyString => EmptyString
  | String c s' => if Ascii.eqb c stop then s else strFrom stop s'
  end.

(** The two groups of a match of [https://([^/]+)/(.+)] that starts at
    the first byte of [s].  Both repetitions are greedy: [[^/]+] takes
    the bytes up to the next [/] (at least one, and a [/] must follow),
    [.+] the bytes up to the next line feed (at least one). *)
Definition submatchHere (s : string) : option (string * string) :=
  if String.prefix "https://" s then
    let rest := strSkip 8 s in
    match strBefore "/"%char rest, strFrom "/"%char rest with
    | String c host, String _ tail =>
        match strBefore "010"%char tail with
        | EmptyString => None
        | path => Some (String c host, path)
        end
    | _, _ => None
    end
  else None.

(** [re.FindStringSubmatch(uri)]: the groups of the leftmost match. *)
Fixpoint FindStringSubmatch (uri : string) : option (string * string) :=
  match submatchHere uri with
  | Some groups => Some groups
  | None =>
      match uri with
      | EmptyString => None
      | String _ uri' => FindStringSubmatch uri'
      end
  end.

Definition extractDomainAndPath (uri : string) : string * string :=
  match FindStringSubmatch uri with
  | Some (domain, path) => (domain, path)
  | None => (EmptyString, EmptyString)     (* len(matches) != 3 *)
  end.

(** The handler of a route, for the value of [c.Param("path")]: the
    URI it passes to [c.Redirect]. *)
Definition handler (r : Route) (g : Globals) (param : string) : string :=
  let '(_, originalPath) := extractDomainAndPath param in
  buildRedirectURI originalPath (handlerDomain r g).

(** * Part II: sorting procedures, vocabulary and worked inputs *)

(** ** Three procedures that meet the contract of [sort.Sort]

    They follow what package [sort] runs on short slices: on at most 12
    elements the insertion sort alone (Go 1.19 and later) or the
    insertion sort after a shell pass with gap 6 (up to Go 1.18); on
    more than 12 elements (Go 1.19 and later) a round of [pdqsort]
    first. *)

(** Insertion sort: each element moves left while it is [Less] than its
    left neighbour.  [sorted] is the part already in order, last element
    first. *)
Fixpoint insertLeft (x : Domain) (sorted : list Domain) : list Domain :=
  match sorted with
  | [] => [x]
  | y :: sorted' =>
      if lowerLatency x y then y :: insertLeft x sorted' else x :: sorted
  end.

Definition insertionSort (a : list Domain) : list Domain :=
  reverse (foldl (fun sorted x => insertLeft x sorted) [] a).

(** [for i := a + 6; i < b; i++ { if data.Less(i, i-6) { data.Swap(i, i-6) } }] *)
Definition shellStep (a : list Domain) (i : nat) : list Domain :=
  if ByLatency.Less a i (i - 6) then ByLatency.Swap a i (i - 6) else a.

Definition shellPass (a : list Domain) : list Domain :=
  foldl shellStep a (seq 6 (length a - 6)).

Definition shellInsertionSort (a : list Domain) : list Domain :=
  insertionSort (shellPass a).

(** [order2] and [median] of package [sort], with the count of swaps
    threaded through. *)
Definition order2 (data : list Domain) (a b swaps : nat) : nat * nat * nat :=
  if ByLatency.Less data b a then (b, a, S swaps) else (a, b, swaps).

Definition median (data : list Domain) (a b c swaps : nat) : nat * nat :=
  let '(a, b, swaps) := order2 data a b swaps in
  let '(b, c, swaps) := order2 data b c swaps in
  let '(a, b, swaps) := order2 data a b swaps in
  (b, swaps).

(** [choosePivot(data, 0, l)] for [l < 50]: a static pivot below 8
    elements, the median of three from 8 on.  The result is the pivot
    and the number of swaps (0 is the hint that the slice may be in
    increasing order). *)
Definition choosePivot (data : list Domain) : nat * nat :=
  let l := length data in
  let i := (l / 4 * 1)%nat in
  let j := (l / 4 * 2)%nat in
  let k := (l / 4 * 3)%nat in
  if (8 <=? l)%nat then median data i j k 0 else (j, 0%nat).

(** [partialInsertionSort(data, 0, l)] for [l < 50], where it moves
    nothing: whether no element is [Less] than its left neighbour. *)
Definition inOrder (data : list Domain) : bool :=
  forallb (fun i => negb (ByLatency.Less data i (i - 1))) (seq 1 (length data - 1)).

(** The two inner loops of [partition(data, 0, l, pivot)], after the
    pivot has been swapped to index 0:
    [for i <= j && data.Less(i, a) { i++ }] and
    [for i <= j && !data.Less(j, a) { j-- }]. *)
Fixpoint scanUp (data : list Domain) (fuel i j : nat) : nat :=
  match fuel with
  | O => i
  | S fuel' =>
      if (i <=? j)%nat && ByLatency.Less data i 0
      then scanUp data fuel' (S i) j else i
  end.

Fixpoint scanDown (data : list Domain) (fuel i j : nat) : nat :=
  match fuel with
  | O => j
  | S fuel' =>
      if (i <=? j)%nat && negb (ByLatency.Less data j 0)
      then scanDown data fuel' i (j - 1) else j
  end.

(** The outer loop of [partition]: scan, stop when [i > j], else swap
    and step.  It returns the slice and [j]. *)
Fixpoint partitionLoop (fuel : nat) (data : list Domain) (i j : nat)
  : list Domain * nat :=
  match fuel with
  | O => (data, j)
  | S fuel' =>
      let i := scanUp data (length data) i j in
      let j := scanDown data (length data) i j in
      if (j <? i)%nat then (data, j)
      else partitionLoop fuel' (ByLatency.Swap data i j) (S i) (j - 1)
  end.

Definition partition (data : list Domain) (pivot : nat) : list Domain :=
  let data := ByLatency.Swap data 0 pivot in
  let '(data, j) := partitionLoop (length data) data 1 (length data - 1) in
  ByLatency.Swap data j 0.

(** The first round of [pdqsort(data, 0, l, limit)] for [12 < l < 50]:
    the pivot is chosen, a slice found in order is left as it is, any
    other is partitioned. *)
Definition pdqsortRound (data : list Domain) : list Domain :=
  if (length data <=? 12)%nat then data
  else
    let '(pivot, swaps) := choosePivot data in
    if (swaps =? 0)%nat && inOrder data then data
    else partition data pivot.

(** After the round, [pdqsort] sorts each side of the pivot; with at
    most 12 elements on either side that is the insertion sort. *)
Definition pdqInsertionSort (a : list Domain) : list Domain :=
  insertionSort (pdqsortRound a).

(** ** Vocabulary of the statements *)

(** [y] may follow [x] in a sorted slice. *)
Definition notLower (x y : Domain) : Prop := lowerLatency x y = false.

(** Stability: among the candidates of any one latency, the order of
    the input is kept. *)
Definition stable (input output : list Domain) : Prop :=
  forall latency : Z,
    filter (fun d => Latency d = latency) output
    = filter (fun d => Latency d = latency) input.

Definition elapsedOf (r : GetResult) : option Z :=
  match r with
  | GetFails => None
  | GetReturns elapsed => Some elapsed
  end.

(** The elapsed milliseconds of the attempts that did not fail. *)
Definition succeeded (rs : list GetResult) : list Z := omap elapsedOf rs.

Definition sumZ (l : list Z) : Z := foldr Z.add 0 l.

(** The received values other than the failure mark [-1]. *)
Definition counted (speedCh : list Z) : list Z :=
  filter (fun speed => speed <> -1) speedCh.


(** Where the process can be when the first [r.Run] does not return. *)
Definition blockedInFirstRun (p : Proc) : Prop :=
  (loc p = AtStart /\ refreshes p = 0%nat) \/
  (loc p = InGinRun 0 /\ refreshes p = 1%nat) \/
  (exists x, loc p = Stopped x /\ refreshes p = 0%nat).

(** [substr] occurs in [s] ([strings.Contains]). *)
Fixpoint Contains (s substr : string) : bool :=
  String.prefix substr s ||
  match s with
  | EmptyString => false
  | String _ s' => Contains s' substr
  end.

(** The character [c] occurs in [s]. *)
Fixpoint strHas (c : Ascii.ascii) (s : string) : bool :=
  match s with
  | EmptyString => false
  | String c' s' => Ascii.eqb c' c || strHas c s'
  end.

(** The candidate at index [i] is not dropped by a pass: its probe
    failed, or its download returned no error. *)
Definition kept (threads : Z) (n : Net) (host : string) : Prop :=
  (tping n host).1 = -1 \/ (download threads n host).2 = None.

(** What the main goroutine has been through: in the [k]-th
    [startGinServer()], or at the ticker before the [k]-th cycle, all
    earlier [r.Run] have returned, and the cycles are counted. *)
Definition accounted (e : Env) (p : Proc) : Prop :=
  match loc p with
  | AtStart => refreshes p = 0%nat
  | InGinRun k =>
      refreshes p = S k /\ forall j, (j < k)%nat -> ginRunReturns e j = true
  | AtTicker k =>
      refreshes p = k /\ forall j, (j < k)%nat -> ginRunReturns e j = true
  | Stopped _ => True
  end.

(** The list has been through a completed cycle and still names the
    hosts of [lines], or no cycle has completed. *)
Definition namesKept (lines : list string) (p : Proc) : Prop :=
  (loc p = AtStart /\ refreshes p = 0%nat) \/
  ((1 <= refreshes p)%nat /\ Name <$> domains p ≡ₚ lines) \/
  (exists x, loc p = Stopped x /\ refreshes p = 0%nat).

(** ** Worked inputs *)

Definition lossless (ms : Z) : PingerResult :=
  RunReturns (mkStatistics 0%float (ms * 1000000)).

Definition lossy (percent : float) (ms : Z) : PingerResult :=
  RunReturns (mkStatistics percent (ms * 1000000)).

(** [x.test] loses every packet, [y.test] answers in 30ms and every
    other host in 10ms; every download attempt takes 100ms. *)
Definition xyzNet : Net :=
  mkNet (fun host =>
           if String.eqb host "x.test" then lossy 100%float 0
           else if String.eqb host "y.test" then lossless 30
           else lossless 10)
        (fun _ _ => GetReturns 100).

Definition xyz : list Domain :=
  [mkDomain "x.test" 0 0 false; mkDomain "y.test" 0 0 false; mkDomain "z.test" 0 0 false].

(** Five attempts, the second and the fourth fail, the others take 10,
    20 and 30 milliseconds. *)
Definition threeOfFive : Net :=
  mkNet (fun _ => lossless 5)
        (fun _ k => nth k [GetReturns 10; GetFails; GetReturns 20; GetFails; GetReturns 30]
                      GetFails).

(** [A] and [B] at 50ms, [C] at 10ms. *)
Definition abcNet : Net :=
  mkNet (fun host => if String.eqb host "C" then lossless 10 else lossless 50)
        (fun _ _ => GetReturns 100).

Definition abc : list Domain :=
  [mkDomain "A" 0 0 false; mkDomain "B" 0 0 false; mkDomain "C" 0 0 false].

(** Seven hosts, [a] to [f] at 50ms and [g] at 10ms. *)
Definition sevenNet : Net :=
  mkNet (fun host => if String.eqb host "g" then lossless 10 else lossless 50)
        (fun _ _ => GetReturns 100).

Definition seven : list Domain :=
  (fun host => mkDomain host 0 0 false) <$> ["a"; "b"; "c"; "d"; "e"; "f"; "g"].

(** The main list is [xyz], [multi.txt] lists [y.test] and [z.test],
    [single.txt] lists [fast.example.com]; the network is [xyzNet]
    throughout. *)
Definition xyzCycle : Cycle :=
  mkCycle (<["all.txt" := ["x.test"; "y.test"; "z.test"]]>
           (<["multi.txt" := ["y.test"; "z.test"]]>
            (<["single.txt" := ["fast.example.com"]]> ∅)))
          (fun _ => xyzNet) (fun _ _ => xyzNet).

(** As [xyzCycle], but [single.txt] now holds one empty line, and no
    pinger can be made for the empty host name. *)
Definition emptyLineCycle : Cycle :=
  mkCycle (<["single.txt" := [EmptyString]]> (files xyzCycle))
          (fun _ => xyzNet)
          (fun _ _ => mkNet (fun host => if String.eqb host EmptyString
                                         then NewPingerFails else pinger xyzNet host)
                            (httpGet xyzNet)).

(** As [xyzCycle], but [single.txt] is an empty file. *)
Definition emptyFileCycle : Cycle :=
  mkCycle (<["single.txt" := []]> (files xyzCycle)) (fun _ => xyzNet) (fun _ _ => xyzNet).

(** As [xyzCycle], but there is no [multi.txt]. *)
Definition noMultiCycle : Cycle :=
  mkCycle (<["all.txt" := ["x.test"; "y.test"; "z.test"]]>
           (<["single.txt" := ["fast.example.com"]]> ∅))
          (fun _ => xyzNet) (fun _ _ => xyzNet).

(** As [xyzCycle], but every download attempt fails. *)
Definition noDownloadCycle : Cycle :=
  mkCycle (files xyzCycle) (fun _ => xyzNet)
          (fun _ _ => mkNet (pinger xyzNet) (fun _ _ => GetFails)).

(** Thirteen hosts, [a] to [l] at 50ms and [m] at 10ms. *)
Definition thirteenNet : Net :=
  mkNet (fun host => if String.eqb host "m" then lossless 10 else lossless 50)
        (fun _ _ => GetReturns 100).

Definition thirteen : list Domain :=
  (fun host => mkDomain host 0 0 false)
    <$> ["a"; "b"; "c"; "d"; "e"; "f"; "g"; "h"; "i"; "j"; "k"; "l"; "m"].

(** A process that serves normally: the version flag is off, the cycles
    are [xyzCycle], and [r.Run] never fails. *)
Definition servingEnv : Env :=
  mkEnv false "all.txt" 32 (fun _ => xyzCycle) (fun _ => false).

(** As [servingEnv], with the empty [single.txt]. *)
Definition emptyFileEnv : Env :=
  mkEnv false "all.txt" 32 (fun _ => emptyFileCycle) (fun _ => false).

(** As [servingEnv], without [multi.txt]. *)
Definition noMultiEnv : Env :=
  mkEnv false "all.txt" 32 (fun _ => noMultiCycle) (fun _ => false).

(** As [servingEnv], but every [r.Run] returns with an error. *)
Definition failingServerEnv : Env :=
  mkEnv false "all.txt" 32 (fun _ => xyzCycle) (fun _ => true).

(** The version flag is set. *)
Definition versionEnv : Env :=
  mkEnv true "all.txt" 32 (fun _ => xyzCycle) (fun _ => false).

(** Closes a goal that holds by evaluation of the program. *)
Ltac evaluate := vm_compute; reflexivity.

(** * Part III: properties *)

Example tping_loss :
  tping (mkNet (fun _ => lossy 25%float 12) (fun _ _ => GetFails)) "a.test"
  = (-1, Some ErrPacketLoss).
Proof. reflexivity. Qed.

Example tping_whole_milliseconds :
  tping (mkNet (fun _ => RunReturns (mkStatistics 0%float 12999999)) (fun _ _ => GetFails))
        "a.test" = (12, None).
Proof. reflexivity. Qed.

Example download_3_of_5 :
  download_recv [10; -1; 20; -1; 30] = (20, None).
Proof. reflexivity. Qed.

Example download_all_failed :
  download 32 (mkNet (fun _ => lossless 5) (fun _ _ => GetFails)) "a.test"
  = (-1, Some ErrNodeAbnormal).
Proof. reflexivity. Qed.

(** ** Machine integers *)

Lemma wrap64_id z : int_range z -> wrap64 z = z.
Proof.
  unfold int_range, wrap64. intros Hz.
  rewrite Z.mod_small; lia.
Qed.

Lemma wrap64_add_l a b : wrap64 (wrap64 a + b) = wrap64 (a + b).
Proof.
  unfold wrap64.
  replace (((a + 2 ^ 63) mod 2 ^ 64 - 2 ^ 63 + b + 2 ^ 63))
    with ((a + 2 ^ 63) mod 2 ^ 64 + b) by lia.
  rewrite Zplus_mod_idemp_l. do 2 f_equal. lia.
Qed.

(** ** The order [ByLatency] *)

Lemma lowerLatency_false x y : lowerLatency y x = false <-> Latency x <= Latency y.
Proof. unfold lowerLatency. rewrite Z.ltb_ge. reflexivity. Qed.

Lemma lowerLatency_true x y : lowerLatency x y = true <-> Latency x < Latency y.
Proof. unfold lowerLatency. apply Z.ltb_lt. Qed.

Lemma Less_lookup a i j x y :
  a !! i = Some x -> a !! j = Some y -> ByLatency.Less a i j = lowerLatency x y.
Proof. unfold ByLatency.Less. by intros -> ->. Qed.

Lemma StronglySorted_lookup {A} (R : relation A) (l : list A) i j x y :
  StronglySorted R l -> l !! i = Some x -> l !! j = Some y -> (i < j)%nat -> R x y.
Proof.
  intros Hl. revert i j. induction Hl as [|z l Hl IH Hz]; intros i j Hi Hj Hij.
  - discriminate.
  - destruct j as [|j]; [lia|]. destruct i as [|i]; simpl in *.
    + injection Hi as <-. rewrite Forall_forall in Hz.
      apply Hz. apply list_elem_of_lookup. eauto.
    + apply (IH i j); auto with lia.
Qed.

(** From the order of the elements to the contract on indices. *)
Lemma ordered_by_index (f : list Domain -> list Domain) :
  (forall a i j x y, f a !! i = Some x -> f a !! j = Some y -> (i < j)%nat ->
                     lowerLatency y x = false) ->
  forall a i j, (i < j)%nat -> (j < ByLatency.Len (f a))%nat ->
                ByLatency.Less (f a) j i = false.
Proof.
  intros Hf a i j Hij Hj. unfold ByLatency.Len in Hj.
  destruct (lookup_lt_is_Some_2 (f a) i) as [x Hx]; [lia|].
  destruct (lookup_lt_is_Some_2 (f a) j) as [y Hy]; [lia|].
  rewrite (Less_lookup _ _ _ _ _ Hy Hx). eauto.
Qed.

(** ** [insertionSort] meets the contract *)

Lemma insertLeft_perm x l : insertLeft x l ≡ₚ x :: l.
Proof.
  induction l as [|y l IH]; simpl; [done|].
  destruct (lowerLatency x y); [|done].
  rewrite IH. apply Permutation_swap.
Qed.

Lemma insertLeft_sorted x l :
  StronglySorted notLower l -> StronglySorted notLower (insertLeft x l).
Proof.
  induction 1 as [|y l Hl IH Hy]; simpl.
  - repeat constructor.
  - destruct (lowerLatency x y) eqn:Hxy.
    + constructor; [done|].
      rewrite insertLeft_perm. constructor; [|done].
      apply lowerLatency_false. apply lowerLatency_true in Hxy. lia.
    + constructor; [by constructor|].
      constructor; [done|].
      eapply Forall_impl; [exact Hy|]. intros z Hz.
      unfold notLower in *. rewrite lowerLatency_false in *. lia.
Qed.

Lemma insertion_fold_perm a acc :
  foldl (fun sorted x => insertLeft x sorted) acc a ≡ₚ a ++ acc.
Proof.
  revert acc. induction a as [|x a IH]; intros acc; simpl; [done|].
  rewrite IH, insertLeft_perm. by rewrite Permutation_middle.
Qed.

Lemma insertion_fold_sorted a acc :
  StronglySorted notLower acc ->
  StronglySorted notLower (foldl (fun sorted x => insertLeft x sorted) acc a).
Proof.
  revert acc. induction a as [|x a IH]; intros acc Hacc; simpl; [done|].
  apply IH. by apply insertLeft_sorted.
Qed.

Lemma insertionSort_perm a : insertionSort a ≡ₚ a.
Proof.
  unfold insertionSort. rewrite reverse_Permutation, insertion_fold_perm.
  by rewrite app_nil_r.
Qed.

Lemma insertionSort_elements a i j x y :
  insertionSort a !! i = Some x -> insertionSort a !! j = Some y -> (i < j)%nat ->
  lowerLatency y x = false.
Proof.
  unfold insertionSort. intros Hi Hj Hij.
  apply reverse_lookup_Some in Hi as [Hi Hli], Hj as [Hj Hlj].
  eapply (StronglySorted_lookup notLower); [| exact Hj | exact Hi | lia].
  apply insertion_fold_sorted. constructor.
Qed.

Definition insertionImpl : sort.Impl :=
  sort.mkImpl insertionSort insertionSort_perm
    (ordered_by_index insertionSort insertionSort_elements).

(** ** The shell pass followed by [insertionSort] meets the contract *)

Lemma insert_swap_out (a : list Domain) j x y :
  a !! j = Some y -> y :: <[j:=x]> a ≡ₚ x :: a.
Proof.
  revert j. induction a as [|w a IH]; intros [|j] Hj; simplify_eq/=.
  - apply Permutation_swap.
  - rewrite Permutation_swap, (IH j Hj). apply Permutation_swap.
Qed.

Lemma Swap_perm a i j : ByLatency.Swap a i j ≡ₚ a.
Proof.
  unfold ByLatency.Swap.
  destruct (a !! i) as [x|] eqn:Hi; [|done].
  destruct (a !! j) as [y|] eqn:Hj; [|done].
  revert i j Hi Hj. induction a as [|z a IH]; intros [|i] [|j] Hi Hj; simplify_eq/=.
  - done.
  - by apply insert_swap_out.
  - by apply insert_swap_out.
  - f_equiv. by apply IH.
Qed.

Lemma shellStep_perm a i : shellStep a i ≡ₚ a.
Proof.
  unfold shellStep. destruct (ByLatency.Less _ _ _); [apply Swap_perm|done].
Qed.

Lemma shellPass_perm a : shellPass a ≡ₚ a.
Proof.
  unfold shellPass. generalize (seq 6 (length a - 6)). intros idx.
  revert a. induction idx as [|i idx IH]; intros a; simpl; [done|].
  by rewrite IH, shellStep_perm.
Qed.

Lemma shellInsertionSort_perm a : shellInsertionSort a ≡ₚ a.
Proof.
  unfold shellInsertionSort. by rewrite insertionSort_perm, shellPass_perm.
Qed.

Lemma shellInsertionSort_elements a i j x y :
  shellInsertionSort a !! i = Some x -> shellInsertionSort a !! j = Some y ->
  (i < j)%nat -> lowerLatency y x = false.
Proof. apply insertionSort_elements. Qed.

Definition shellInsertionImpl : sort.Impl :=
  sort.mkImpl shellInsertionSort shellInsertionSort_perm
    (ordered_by_index shellInsertionSort shellInsertionSort_elements).

(** ** The round of [pdqsort] followed by [insertionSort] meets the contract *)

Lemma partitionLoop_perm fuel data i j : (partitionLoop fuel data i j).1 ≡ₚ data.
Proof.
  revert data i j. induction fuel as [|fuel IH]; intros data i j; simpl; [done|].
  destruct (_ <? _)%nat; [done|]. by rewrite IH, Swap_perm.
Qed.

Lemma partition_perm data pivot : partition data pivot ≡ₚ data.
Proof.
  unfold partition.
  pose proof (partitionLoop_perm (length (ByLatency.Swap data 0 pivot))
                (ByLatency.Swap data 0 pivot) 1
                (length (ByLatency.Swap data 0 pivot) - 1)) as Hloop.
  destruct (partitionLoop _ _ _ _) as [data' j]. simpl in Hloop.
  by rewrite Swap_perm, Hloop, Swap_perm.
Qed.

Lemma pdqsortRound_perm data : pdqsortRound data ≡ₚ data.
Proof.
  unfold pdqsortRound. destruct (_ <=? _)%nat; [done|].
  destruct (choosePivot data) as [pivot swaps].
  destruct (_ && _); [done|]. apply partition_perm.
Qed.

Lemma pdqInsertionSort_perm a : pdqInsertionSort a ≡ₚ a.
Proof.
  unfold pdqInsertionSort. by rewrite insertionSort_perm, pdqsortRound_perm.
Qed.

Lemma pdqInsertionSort_elements a i j x y :
  pdqInsertionSort a !! i = Some x -> pdqInsertionSort a !! j = Some y ->
  (i < j)%nat -> lowerLatency y x = false.
Proof. apply insertionSort_elements. Qed.

Definition pdqInsertionImpl : sort.Impl :=
  sort.mkImpl pdqInsertionSort pdqInsertionSort_perm
    (ordered_by_index pdqInsertionSort pdqInsertionSort_elements).

(** ** What every [sort.Sort] gives *)

Section Sorted.

Variable sorter : sort.Impl.

Lemma Sort_elem_of a d : d ∈ sort.Sort sorter a <-> d ∈ a.
Proof. by rewrite (sort.Sort_perm sorter a). Qed.


Lemma Sort_nil_iff a : sort.Sort sorter a = [] <-> a = [].
Proof.
  split; intros H.
  - apply Permutation_nil_r. by rewrite <- H, (sort.Sort_perm sorter a).
  - apply Permutation_nil_r. by rewrite (sort.Sort_perm sorter a), H.
Qed.

Lemma Sort_latency_le a i j x y :
  sort.Sort sorter a !! i = Some x -> sort.Sort sorter a !! j = Some y ->
  (i < j)%nat -> Latency x <= Latency y.
Proof.
  intros Hi Hj Hij. apply lowerLatency_false.
  rewrite <- (Less_lookup _ _ _ _ _ Hj Hi).
  apply sort.Sort_ordered; [done|]. by apply lookup_lt_Some in Hj.
Qed.

(** Element 0 has the least latency of the slice. *)
Lemma Sort_head_least a d x :
  sort.Sort sorter a !! 0%nat = Some d -> x ∈ a -> Latency d <= Latency x.
Proof.
  intros Hd Hx. apply Sort_elem_of in Hx.
  apply list_elem_of_lookup in Hx as [[|j] Hj].
  - by simplify_eq.
  - eapply Sort_latency_le; eauto with lia.
Qed.

End Sorted.

(** ** [download]: the mean over the attempts that succeeded *)

Lemma sumZ_perm l k : l ≡ₚ k -> sumZ l = sumZ k.
Proof. induction 1; simpl; lia. Qed.

Lemma sumZ_nonneg l : Forall (fun z => 0 <= z) l -> 0 <= sumZ l.
Proof. induction 1; simpl; lia. Qed.

Lemma receive_fold speedCh t c :
  foldl receive (wrap64 t, wrap64 c) speedCh
  = (wrap64 (t + sumZ (counted speedCh)), wrap64 (c + Z.of_nat (length (counted speedCh)))).
Proof.
  revert t c. induction speedCh as [|speed speedCh IH]; intros t c; simpl.
  - by rewrite !Z.add_0_r.
  - unfold receive at 2, counted. simpl. rewrite filter_cons.
    destruct (Z.eqb_spec speed (-1)) as [->|Hne]; case_decide; try done.
    rewrite !wrap64_add_l, IH. simpl.
    unfold counted. f_equal; f_equal; lia.
Qed.

Lemma counted_sent rs :
  Forall (fun r => forall e, r = GetReturns e -> 0 <= e) rs ->
  counted (sent <$> rs) = succeeded rs.
Proof.
  unfold counted, succeeded.
  induction 1 as [|r rs Hr Hrs IH]; [done|].
  rewrite fmap_cons, filter_cons. destruct r as [|e]; simpl; [done|].
  case_decide; [by rewrite IH|]. specialize (Hr e eq_refl). lia.
Qed.

Lemma succeeded_nil_iff rs : succeeded rs = [] <-> Forall (eq GetFails) rs.
Proof.
  unfold succeeded. induction rs as [|[|e] rs IH]; simpl.
  - split; auto.
  - rewrite IH. split; [by constructor | by inversion 1].
  - split; [done | by inversion 1].
Qed.

Lemma succeeded_length rs : (length (succeeded rs) <= length rs)%nat.
Proof.
  unfold succeeded. induction rs as [|[|e] rs IH]; csimpl; lia.
Qed.

Lemma succeeded_nonneg rs :
  Forall (fun r => forall e, r = GetReturns e -> 0 <= e) rs ->
  Forall (fun z => 0 <= z) (succeeded rs).
Proof.
  unfold succeeded. induction 1 as [|[|e] rs Hr Hrs IH]; simpl; auto.
Qed.

(** The result of the receiving loop, whatever the order of arrival. *)
Lemma download_recv_value rs speedCh :
  Z.of_nat (length rs) < 2 ^ 63 ->
  Forall (fun r => forall e, r = GetReturns e -> 0 <= e) rs ->
  sumZ (succeeded rs) < 2 ^ 63 ->
  speedCh ≡ₚ sent <$> rs ->
  download_recv speedCh =
    if decide (succeeded rs = []) then (-1, Some ErrNodeAbnormal)
    else (sumZ (succeeded rs) `div` Z.of_nat (length (succeeded rs)), None).
Proof.
  intros Hlen Hpos Hsum Hperm. unfold download_recv.
  change (0, 0) with (wrap64 0, wrap64 0). rewrite receive_fold. simpl.
  assert (counted speedCh ≡ₚ succeeded rs) as Hc.
  { rewrite <- (counted_sent rs Hpos). unfold counted. by rewrite Hperm. }
  assert (length (counted speedCh) = length (succeeded rs)) as Hl by (by rewrite Hc).
  rewrite (sumZ_perm _ _ Hc), Hl, !Z.add_0_l.
  pose proof (succeeded_length rs) as Hle.
  pose proof (sumZ_nonneg _ (succeeded_nonneg rs Hpos)) as H0.
  rewrite (wrap64_id (Z.of_nat _)) by (unfold int_range; lia).
  rewrite (wrap64_id (sumZ _)) by (unfold int_range; lia).
  destruct (decide (succeeded rs = [])) as [->|Hne]; [done|].
  assert (0 < Z.of_nat (length (succeeded rs))) as Hcnt.
  { destruct (succeeded rs); [done | simpl; lia]. }
  destruct (Z.eqb_spec (Z.of_nat (length (succeeded rs))) 0); [lia|].
  rewrite Z.quot_div_nonneg by lia.
  rewrite wrap64_id; [done|]. unfold int_range.
  pose proof (Z.div_pos (sumZ (succeeded rs)) _ H0 Hcnt).
  pose proof (Z.div_le_upper_bound (sumZ (succeeded rs)) (Z.of_nat (length (succeeded rs)))
                (sumZ (succeeded rs)) Hcnt). nia.
Qed.

Lemma attempts_length threads n domain :
  length (attempts threads n domain) = Z.to_nat threads.
Proof. unfold attempts. by rewrite length_fmap, length_seq. Qed.

(** ** The claims about [tping] and [download] *)

(** C8. [tping] fails, returning [-1] and the packet-loss error, whenever
    the packet loss the pinger measured is strictly greater than zero,
    partial loss included; the average round-trip time of the packets
    that came back is not returned. *)
Theorem tping_any_loss_fails (n : Net) (domain : string) (stats : Statistics) :
  pinger n domain = RunReturns stats ->
  (0 <? PacketLoss stats)%float = true ->
  tping n domain = (-1, Some ErrPacketLoss) /\
  forall v, tping n domain <> (v, None).
Proof.
  intros Hrun Hloss. unfold tping. rewrite Hrun, Hloss. split; [done|].
  intros v. discriminate.
Qed.

Lemma tping_any_loss_fails_witness :
  tping (mkNet (fun _ => lossy 25%float 12) (fun _ _ => GetFails)) "a.test"
  = (-1, Some ErrPacketLoss).
Proof.
  refine (proj1 (tping_any_loss_fails
    (mkNet (fun _ => lossy 25%float 12) (fun _ _ => GetFails)) "a.test"
    (mkStatistics 25%float 12000000) _ _)); reflexivity.
Defined.

(** A value without an error comes from a run without loss and is the
    average round-trip time in whole milliseconds. *)
Lemma tping_success (n : Net) (domain : string) (v : Z) :
  tping n domain = (v, None) ->
  exists stats, pinger n domain = RunReturns stats /\
                (0 <? PacketLoss stats)%float = false /\
                v = Milliseconds (AvgRtt stats).
Proof.
  unfold tping. destruct (pinger n domain) as [| |stats]; try discriminate.
  destruct (0 <? PacketLoss stats)%float eqn:Hloss; [discriminate|].
  intros [= <-]. eauto.
Qed.

(** C6. [download] returns an error exactly when every attempt failed;
    otherwise it returns the mean (the sum divided by their number, in
    whole milliseconds) of the elapsed milliseconds of the attempts that
    succeeded, the failed ones left out.  This holds for every order in
    which the goroutines' values arrive on the channel.  Elapsed times
    are non-negative and their sum is an [int]. *)
Theorem download_mean_of_successes (threads : Z) (n : Net) (domain : string)
    (speedCh : list Z) :
  threads < 2 ^ 63 ->
  Forall (fun r => forall e, r = GetReturns e -> 0 <= e) (attempts threads n domain) ->
  sumZ (succeeded (attempts threads n domain)) < 2 ^ 63 ->
  speedCh ≡ₚ sent <$> attempts threads n domain ->
  download_recv speedCh = download threads n domain /\
  (Forall (eq GetFails) (attempts threads n domain) ->
   download threads n domain = (-1, Some ErrNodeAbnormal)) /\
  (~ Forall (eq GetFails) (attempts threads n domain) ->
   download threads n domain
   = (sumZ (succeeded (attempts threads n domain))
        `div` Z.of_nat (length (succeeded (attempts threads n domain))), None)).
Proof.
  intros Hthreads Hpos Hsum Hperm.
  assert (Z.of_nat (length (attempts threads n domain)) < 2 ^ 63) as Hlen.
  { rewrite attempts_length. lia. }
  pose proof (download_recv_value _ _ Hlen Hpos Hsum Hperm) as Hany.
  pose proof (download_recv_value _ _ Hlen Hpos Hsum (reflexivity _)) as Hidx.
  fold (download threads n domain) in Hidx.
  split; [congruence|]. rewrite Hidx. split; intros Hall.
  - apply succeeded_nil_iff in Hall. by rewrite decide_True.
  - rewrite <- succeeded_nil_iff in Hall. by rewrite decide_False.
Qed.

Lemma download_mean_of_successes_witness :
  download_recv [-1; 10; 20; -1; 30] = download 5 threeOfFive "a.test" /\
  download 5 threeOfFive "a.test" = (20, None).
Proof.
  destruct (download_mean_of_successes 5 threeOfFive "a.test" [-1; 10; 20; -1; 30])
    as (Hany & _ & Hmean).
  - lia.
  - repeat constructor; intros e [= <-]; lia.
  - evaluate.
  - apply perm_swap.
  - split; [exact Hany|]. rewrite Hmean; [reflexivity|].
    intros Hall. inversion Hall. discriminate.
Defined.

(** ** The measurement passes, element by element *)

Lemma probe_eq (n : Net) (d : Domain) :
  probe n d = setLatency (tping n (Name d)).1 d.
Proof. unfold probe. by destruct (tping n (Name d)). Qed.

Lemma updateDomainsLatency_lookup net domains i :
  updateDomainsLatency net domains !! i
  = (fun d => setLatency (tping (net i) (Name d)).1 d) <$> domains !! i.
Proof.
  unfold updateDomainsLatency. rewrite list_lookup_imap.
  destruct (domains !! i); simpl; [|done]. by rewrite probe_eq.
Qed.

Lemma updateDomainsLatency_length net domains :
  length (updateDomainsLatency net domains) = length domains.
Proof. apply length_imap. Qed.

Lemma probeAndDownload_failed threads (n : Net) (d : Domain) :
  (tping n (Name d)).1 = -1 -> probeAndDownload threads n d = setLatency (-1) d.
Proof.
  unfold probeAndDownload. destruct (tping n (Name d)) as [latency err].
  simpl. by intros ->.
Qed.

Lemma probeAndDownload_latency threads (n : Net) (d : Domain) :
  Latency (probeAndDownload threads n d) = (tping n (Name d)).1.
Proof.
  unfold probeAndDownload. destruct (tping n (Name d)) as [latency err]. simpl.
  destruct (negb (latency =? -1)); [|done].
  by destruct (download _ _ _) as [speed [e|]].
Qed.

Lemma measured_lookup threads net domains i :
  measured threads net domains !! i
  = probeAndDownload threads (net i) <$> domains !! i.
Proof. unfold measured. by rewrite list_lookup_imap. Qed.

Lemma excludeDownloadError_elem_of domains d :
  d ∈ excludeDownloadError domains <-> DownloadErr d = false /\ d ∈ domains.
Proof. unfold excludeDownloadError. by rewrite list_elem_of_filter. Qed.

(** ** The ranking of [findFastestDomain] *)

(** C1. The ranking (measurement, then [excludeDownloadError], then the
    sort) returns no candidate whose [DownloadErr] is set.  Nothing is
    filtered on latency: a candidate whose probe failed and whose flag
    is clear stays in the result, with latency [-1]. *)
Theorem ranking_excludes_download_errors (threads : Z) (sorter : sort.Impl)
    (net : nat -> Net) (domains : list Domain) :
  (forall d, d ∈ measureLatencyAndDownload threads net domains -> DownloadErr d = false) /\
  (forall d, d ∈ ranked threads sorter net domains -> DownloadErr d = false) /\
  (forall i d, domains !! i = Some d -> DownloadErr d = false ->
               (tping (net i) (Name d)).1 = -1 ->
               setLatency (-1) d ∈ ranked threads sorter net domains).
Proof.
  unfold ranked, measureLatencyAndDownload. repeat split.
  - intros d Hd. by apply excludeDownloadError_elem_of in Hd as [? _].
  - intros d Hd. apply Sort_elem_of in Hd.
    by apply excludeDownloadError_elem_of in Hd as [? _].
  - intros i d Hi Herr Hping. apply Sort_elem_of, excludeDownloadError_elem_of.
    split; [done|]. apply list_elem_of_lookup. exists i.
    by rewrite measured_lookup, Hi, <- (probeAndDownload_failed threads (net i) d Hping).
Qed.

(** The candidates of the specification's end-to-end example: the
    unreachable [x.test] is in the filtered sequence, with latency [-1]. *)
Lemma ranking_keeps_unmeasured_latency :
  measureLatencyAndDownload 32 (fun _ => xyzNet) xyz
  = [mkDomain "x.test" (-1) 0 false;
     mkDomain "y.test" 30 100 false;
     mkDomain "z.test" 10 100 false].
Proof. evaluate. Qed.

(** C2. The ranked result is sorted non-decreasing by latency and holds
    exactly the candidates that passed the filter.  The order of
    candidates with equal latency is the one [sort.Sort] leaves; with the
    insertion sort, [A] and [B] at 50 and [C] at 10 give [C, A, B]. *)
Theorem ranked_sorted_by_latency (threads : Z) (sorter : sort.Impl)
    (net : nat -> Net) (domains : list Domain) :
  (forall i j x y,
      ranked threads sorter net domains !! i = Some x ->
      ranked threads sorter net domains !! j = Some y ->
      (i < j)%nat -> Latency x <= Latency y) /\
  ranked threads sorter net domains ≡ₚ measureLatencyAndDownload threads net domains /\
  Name <$> ranked 32 insertionImpl (fun _ => abcNet) abc = ["C"; "A"; "B"].
Proof.
  split; [|split].
  - intros i j x y. apply Sort_latency_le.
  - apply sort.Sort_perm.
  - evaluate.
Qed.

(** Sorts that meet the contract of [sort.Sort] and do not keep the
    input order of equal latencies.  With the shell pass, of seven hosts
    [a] ends behind [b]; with the round of [pdqsort], of thirteen hosts
    [g] ends before [c] and [b] last. *)
Lemma ranked_not_stable :
  (Name <$> measureLatencyAndDownload 32 (fun _ => sevenNet) seven
     = ["a"; "b"; "c"; "d"; "e"; "f"; "g"] /\
   Latency <$> measureLatencyAndDownload 32 (fun _ => sevenNet) seven
     = [50; 50; 50; 50; 50; 50; 10] /\
   Name <$> ranked 32 shellInsertionImpl (fun _ => sevenNet) seven
     = ["g"; "b"; "c"; "d"; "e"; "f"; "a"] /\
   ~ stable (measureLatencyAndDownload 32 (fun _ => sevenNet) seven)
            (ranked 32 shellInsertionImpl (fun _ => sevenNet) seven)) /\
  (Name <$> measureLatencyAndDownload 32 (fun _ => thirteenNet) thirteen
     = ["a"; "b"; "c"; "d"; "e"; "f"; "g"; "h"; "i"; "j"; "k"; "l"; "m"] /\
   Latency <$> measureLatencyAndDownload 32 (fun _ => thirteenNet) thirteen
     = [50; 50; 50; 50; 50; 50; 50; 50; 50; 50; 50; 50; 10] /\
   Name <$> ranked 32 pdqInsertionImpl (fun _ => thirteenNet) thirteen
     = ["m"; "g"; "c"; "d"; "e"; "f"; "a"; "h"; "i"; "j"; "k"; "l"; "b"] /\
   ~ stable (measureLatencyAndDownload 32 (fun _ => thirteenNet) thirteen)
            (ranked 32 pdqInsertionImpl (fun _ => thirteenNet) thirteen)).
Proof.
  split; (repeat split; try evaluate);
    intros Hstable; specialize (Hstable 50); vm_compute in Hstable; discriminate.
Qed.

(** ** The refresh cycle *)

Lemma index0_Returns domains d : index0 domains = Returns d <-> domains !! 0%nat = Some d.
Proof. destruct domains; simpl; split; intros; by simplify_eq. Qed.

Lemma index0_Panics domains : index0 domains = Panics <-> domains = [].
Proof. destruct domains; simpl; split; intros; by simplify_eq. Qed.

Lemma findFastestDomain_Returns threads sorter c filename name :
  findFastestDomain threads sorter c filename = Returns name <->
  exists lines d,
    files c !! filename = Some lines /\
    ranked threads sorter (netOf c filename)
      ((fun text => mkDomain text 0 0 false) <$> lines) !! 0%nat = Some d /\
    name = Name d.
Proof.
  unfold findFastestDomain, readDomainsFromFile.
  destruct (files c !! filename) as [lines|]; simpl.
  - destruct (ranked _ _ _ _) as [|d ds] eqn:Hr; simpl.
    + split; [done|]. intros (? & ? & [= <-] & Hd & _). by rewrite Hr in Hd.
    + split.
      * intros [= <-]. exists lines, d. by rewrite Hr.
      * intros (? & ? & [= <-] & Hd & ->). rewrite Hr in Hd. by simplify_eq/=.
  - split; [done|]. by intros (? & ? & ? & _).
Qed.

Lemma updateAndStoreFastestDomains_Returns threads sorter c g domains g' domains' :
  updateAndStoreFastestDomains threads sorter c g domains
    = (Returns tt, (g', domains')) <->
  exists d multi single,
    domains' = sort.Sort sorter (updateDomainsLatency (netAll c) domains) /\
    domains' !! 0%nat = Some d /\
    findFastestDomain threads sorter c "multi.txt" = Returns multi /\
    findFastestDomain threads sorter c "single.txt" = Returns single /\
    g' = mkGlobals multi single (Name d).
Proof.
  unfold updateAndStoreFastestDomains.
  destruct (sort.Sort sorter _) as [|d ds] eqn:Hs; simpl.
  { split; [done|]. intros (? & ? & ? & -> & ? & _). done. }
  destruct (findFastestDomain threads sorter c "multi.txt") as [multi| |] eqn:Hm; simpl;
    try (split; [done|]; by intros (? & ? & ? & _ & _ & ? & _)).
  destruct (findFastestDomain threads sorter c "single.txt") as [single| |] eqn:Hsg; simpl;
    try (split; [done|]; by intros (? & ? & ? & _ & _ & _ & ? & _)).
  split.
  - intros [= <- <-]. by exists d, multi, single.
  - intros (? & ? & ? & -> & ? & ? & ? & ->). by simplify_eq/=.
Qed.

(** However the call ends, the slice is the probed and sorted one. *)
Lemma updateAndStoreFastestDomains_slice threads sorter c g domains :
  (updateAndStoreFastestDomains threads sorter c g domains).2.2
  = sort.Sort sorter (updateDomainsLatency (netAll c) domains).
Proof.
  unfold updateAndStoreFastestDomains.
  destruct (sort.Sort sorter _) as [|d ds]; simpl; [done|].
  destruct (findFastestDomain threads sorter c "multi.txt"); simpl; [|done..].
  by destruct (findFastestDomain threads sorter c "single.txt").
Qed.



(** C9. Under [ByLatency] a domain with the failure value [-1] is [Less]
    than every domain with a non-negative latency, so in the sorted
    slice the domains whose probe failed come first; when a probe of the
    main list failed, the name stored in [allfastestdomain] is the name
    of a domain whose probe failed. *)
Theorem failed_probe_sorts_first_and_is_published (threads : Z) (sorter : sort.Impl)
    (c : Cycle) (g g' : Globals) (domains domains' : list Domain) :
  updateAndStoreFastestDomains threads sorter c g domains = (Returns tt, (g', domains')) ->
  (forall i d, domains !! i = Some d -> -1 <= (tping (netAll c i) (Name d)).1) ->
  (exists i d, domains !! i = Some d /\ (tping (netAll c i) (Name d)).1 = -1) ->
  (forall a i j x y, a !! i = Some x -> a !! j = Some y ->
                     Latency x = -1 -> 0 <= Latency y ->
                     ByLatency.Less a i j = true /\ ByLatency.Less a j i = false) /\
  (forall i j x y, domains' !! i = Some x -> domains' !! j = Some y ->
                   Latency x = -1 -> 0 <= Latency y -> (i < j)%nat) /\
  (exists i d, domains !! i = Some d /\ (tping (netAll c i) (Name d)).1 = -1 /\
               allfastestdomain g' = Name d).
Proof.
  intros (d0 & multi & single & -> & Hd0 & _ & _ & ->)%updateAndStoreFastestDomains_Returns
         Hge (k & dk & Hk & Hfail).
  split; [|split].
  - intros a i j x y Hi Hj Hx Hy.
    rewrite (Less_lookup _ _ _ _ _ Hi Hj), (Less_lookup _ _ _ _ _ Hj Hi).
    rewrite lowerLatency_true, lowerLatency_false. lia.
  - intros i j x y Hi Hj Hx Hy.
    destruct (decide (i < j)%nat) as [|Hji]; [done|].
    assert (i <> j) by (intros ->; simplify_eq; lia).
    pose proof (Sort_latency_le sorter _ j i y x Hj Hi). lia.
  - simpl.
    assert (Latency d0 <= -1) as Hle.
    { eapply (Sort_head_least sorter _ d0 (setLatency (-1) dk)); [done|].
      apply list_elem_of_lookup. exists k.
      by rewrite updateDomainsLatency_lookup, Hk, <- Hfail. }
    apply list_elem_of_lookup_2 in Hd0.
    apply Sort_elem_of, list_elem_of_lookup in Hd0 as [i Hi].
    rewrite updateDomainsLatency_lookup in Hi.
    destruct (domains !! i) as [d|] eqn:Hdi; [|done]. simpl in Hi.
    injection Hi as <-. simpl in Hle. specialize (Hge i d Hdi).
    exists i, d. repeat split; [done|lia].
Qed.

Lemma failed_probe_sorts_first_and_is_published_witness :
  exists i d, xyz !! i = Some d /\ (tping xyzNet (Name d)).1 = -1 /\
              allfastestdomain (mkGlobals "z.test" "fast.example.com" "x.test") = Name d.
Proof.
  refine (proj2 (proj2 (failed_probe_sorts_first_and_is_published 32 insertionImpl
    xyzCycle zeroGlobals (mkGlobals "z.test" "fast.example.com" "x.test") xyz
    [mkDomain "x.test" (-1) 0 false; mkDomain "z.test" 10 0 false;
     mkDomain "y.test" 30 0 false] _ _ _))).
  - evaluate.
  - intros [|[|[|i]]] d [= <-]; vm_compute; discriminate.
  - exists 0%nat, (mkDomain "x.test" 0 0 false). split; evaluate.
Defined.

(** C3. When the list of a file is empty, or every candidate of it is
    filtered out, the ranked result is empty, [findFastestDomain] panics
    on [domains[0]], and [updateAndStoreFastestDomains] does not return;
    it panics as well on an empty main list. *)
Theorem empty_ranking_panics (threads : Z) (sorter : sort.Impl) (c : Cycle)
    (filename : string) (lines : list string) (g : Globals) (domains : list Domain) :
  files c !! filename = Some lines ->
  measureLatencyAndDownload threads (netOf c filename)
    ((fun text => mkDomain text 0 0 false) <$> lines) = [] ->
  filename = "multi.txt" \/ filename = "single.txt" ->
  ranked threads sorter (netOf c filename)
    ((fun text => mkDomain text 0 0 false) <$> lines) = [] /\
  findFastestDomain threads sorter c filename = Panics /\
  (updateAndStoreFastestDomains threads sorter c g domains).1 <> Returns tt /\
  updateAndStoreFastestDomains threads sorter c g [] = (Panics, (g, [])).
Proof.
  intros Hfile Hempty Hname.
  assert (ranked threads sorter (netOf c filename)
            ((fun text => mkDomain text 0 0 false) <$> lines) = []) as Hranked.
  { unfold ranked. by apply Sort_nil_iff. }
  assert (findFastestDomain threads sorter c filename = Panics) as Hpanic.
  { unfold findFastestDomain, readDomainsFromFile. rewrite Hfile. simpl.
    by rewrite Hranked. }
  repeat split; [done..| |].
  - intros Hret.
    destruct (updateAndStoreFastestDomains threads sorter c g domains)
      as [how [g' domains']] eqn:Hup.
    simpl in Hret. subst how.
    apply updateAndStoreFastestDomains_Returns in Hup
      as (d & multi & single & _ & _ & Hm & Hs & _).
    destruct Hname as [-> | ->]; congruence.
  - unfold updateAndStoreFastestDomains.
    change (updateDomainsLatency (netAll c) []) with (@nil Domain).
    by rewrite (proj2 (Sort_nil_iff sorter []) eq_refl).
Qed.

Lemma empty_ranking_panics_witness :
  findFastestDomain 32 insertionImpl noDownloadCycle "single.txt" = Panics /\
  (updateAndStoreFastestDomains 32 insertionImpl noDownloadCycle zeroGlobals xyz).1 = Panics.
Proof.
  destruct (empty_ranking_panics 32 insertionImpl noDownloadCycle "single.txt"
              ["fast.example.com"] zeroGlobals xyz) as (_ & Hfind & _ & _).
  - evaluate.
  - evaluate.
  - right. reflexivity.
  - split; [exact Hfind|]. evaluate.
Defined.

(** The same on an empty [single.txt]; the process ends in the panic at
    its first step, with the two names the cycle had stored by then. *)
Example empty_file_panics :
  findFastestDomain 32 insertionImpl emptyFileCycle "single.txt" = Panics /\
  (updateAndStoreFastestDomains 32 insertionImpl emptyFileCycle zeroGlobals xyz).1
    = Panics /\
  loc (run insertionImpl emptyFileEnv 1) = Stopped None /\
  globals (run insertionImpl emptyFileEnv 1) = mkGlobals "z.test" EmptyString "x.test".
Proof. repeat split; evaluate. Qed.

(** C4. The store is assigned unconditionally: when a refresh cycle
    returns, each variable holds the name of element 0 of that cycle's
    sorted slice for its group, whatever the variables held before. *)
Theorem refresh_overwrites_store (threads : Z) (sorter : sort.Impl) (c : Cycle)
    (g g' : Globals) (domains domains' : list Domain) :
  updateAndStoreFastestDomains threads sorter c g domains = (Returns tt, (g', domains')) ->
  findFastestDomain threads sorter c "single.txt" = Returns (singlefastestdomain g') /\
  findFastestDomain threads sorter c "multi.txt" = Returns (multifastestdomain g') /\
  (exists d, domains' !! 0%nat = Some d /\ allfastestdomain g' = Name d) /\
  (forall g0, updateAndStoreFastestDomains threads sorter c g0 domains
              = (Returns tt, (g', domains'))).
Proof.
  intros H. pose proof H as (d & multi & single & -> & Hd & Hm & Hs & ->)
    %updateAndStoreFastestDomains_Returns.
  simpl. repeat split; [done..| |].
  - by exists d.
  - intros g0. apply updateAndStoreFastestDomains_Returns. by exists d, multi, single.
Qed.

Lemma refresh_overwrites_store_witness :
  findFastestDomain 32 insertionImpl emptyLineCycle "single.txt" = Returns EmptyString.
Proof.
  refine (proj1 (refresh_overwrites_store 32 insertionImpl emptyLineCycle
    (mkGlobals "z.test" "fast.example.com" "x.test")
    (mkGlobals "z.test" EmptyString "x.test") xyz
    [mkDomain "x.test" (-1) 0 false; mkDomain "z.test" 10 0 false;
     mkDomain "y.test" 30 0 false] _)).
  evaluate.
Defined.

(** After a cycle that stored [fast.example.com] for the single group, a
    cycle whose ranking has nothing but the host of an empty line stores
    the empty string. *)
Lemma empty_name_overwrites_previous :
  exists g1 d1 g2 d2,
    updateAndStoreFastestDomains 32 insertionImpl xyzCycle zeroGlobals xyz
      = (Returns tt, (g1, d1)) /\
    singlefastestdomain g1 = "fast.example.com" /\
    updateAndStoreFastestDomains 32 insertionImpl emptyLineCycle g1 d1
      = (Returns tt, (g2, d2)) /\
    singlefastestdomain g2 = EmptyString.
Proof.
  eexists _, _, _, _. split; [evaluate|].
  split; [reflexivity|]. split; [evaluate|]. reflexivity.
Qed.

(** ** The process *)

Lemma run_S sorter e n : run sorter e (S n) = step sorter e (run sorter e n).
Proof. reflexivity. Qed.

Lemma refresh_cases sorter e k p ds :
  (exists g ds', refresh sorter e k p ds = mkProc (InGinRun k) g ds' (S (refreshes p))) \/
  (exists x g ds', refresh sorter e k p ds = mkProc (Stopped x) g ds' (refreshes p)).
Proof.
  unfold refresh.
  destruct (updateAndStoreFastestDomains _ _ _ _ _) as [[[]| |] [g ds']]; eauto 10.
Qed.






(** A startup cycle that stops part-way leaves what it had assigned: with
    an empty [single.txt] the process stops in the panic holding the
    names for "all" and "multi"; with no [multi.txt] it exits with status
    1 holding the name for "all" alone. *)
Example startup_cycle_stops_part_way :
  run insertionImpl emptyFileEnv 1
    = mkProc (Stopped None) (mkGlobals "z.test" EmptyString "x.test")
        [mkDomain "x.test" (-1) 0 false; mkDomain "z.test" 10 0 false;
         mkDomain "y.test" 30 0 false] 0 /\
  run insertionImpl noMultiEnv 1
    = mkProc (Stopped (Some 1)) (mkGlobals EmptyString EmptyString "x.test")
        [mkDomain "x.test" (-1) 0 false; mkDomain "z.test" 10 0 false;
         mkDomain "y.test" 30 0 false] 0.
Proof. split; evaluate. Qed.

Lemma step_blockedInFirstRun sorter e p :
  ginRunReturns e 0%nat = false ->
  blockedInFirstRun p -> blockedInFirstRun (step sorter e p).
Proof.
  intros Hrun [[Hloc Hr]|[[Hloc Hr]|(x & Hloc & Hr)]]; unfold step; rewrite Hloc.
  - destruct (flagVersion e); [right; right; by eexists|].
    destruct (readDomainsFromFile _ _) as [ds| |]; [|right; right; by eexists ..].
    destruct (refresh_cases sorter e 0 p ds) as [(g & ds' & ->)|(y & g & ds' & ->)].
    + right; left. simpl. by rewrite Hr.
    + right; right. by eexists.
  - rewrite Hrun. by right; left.
  - right; right. by eexists.
Qed.

Lemma step_in_blocked_run sorter e p :
  ginRunReturns e 0%nat = false -> loc p = InGinRun 0 -> step sorter e p = p.
Proof. intros Hrun Hloc. unfold step. by rewrite Hloc, Hrun. Qed.

(** C5. When the first [r.Run] serves without failing, [main] never
    leaves the first [startGinServer()]: the ticker loop is not reached
    and no refresh cycle follows the one at startup. *)
Theorem refresh_loop_not_reached (sorter : sort.Impl) (e : Env) (n : nat) :
  ginRunReturns e 0%nat = false ->
  (refreshes (run sorter e n) <= 1)%nat /\
  (forall k, loc (run sorter e n) <> AtTicker k) /\
  (loc (run sorter e n) = InGinRun 0 ->
   forall m, (n <= m)%nat -> run sorter e m = run sorter e n).
Proof.
  intros Hrun.
  assert (forall k, blockedInFirstRun (run sorter e k)) as Hinv.
  { induction k as [|k IH]; [by left|].
    rewrite run_S. by apply step_blockedInFirstRun. }
  split; [|split].
  - destruct (Hinv n) as [[_ ->]|[[_ ->]|(x & _ & ->)]]; lia.
  - intros k Hk.
    destruct (Hinv n) as [[Hl _]|[[Hl _]|(x & Hl & _)]]; congruence.
  - intros Hloc m Hm. induction Hm as [|m Hm IH]; [done|].
    rewrite run_S, IH. by apply step_in_blocked_run.
Qed.

Lemma refresh_loop_not_reached_witness :
  loc (run insertionImpl servingEnv 1) = InGinRun 0 /\
  run insertionImpl servingEnv 1000 = run insertionImpl servingEnv 1 /\
  refreshes (run insertionImpl servingEnv 1) = 1%nat.
Proof.
  assert (loc (run insertionImpl servingEnv 1) = InGinRun 0) as Hloc
    by (evaluate).
  split; [exact Hloc|]. split.
  - apply (proj2 (proj2 (refresh_loop_not_reached insertionImpl servingEnv 1 eq_refl)) Hloc).
    repeat constructor.
  - evaluate.
Defined.

(** * Part IV: further properties of the code *)

(** ** [tping] and [download] *)

(** X1. The callers of [tping] drop its error and test the latency
    against [-1].  With a non-negative average round-trip time the two
    agree: the latency is [-1] exactly when [tping] returns an error. *)
Theorem tping_sentinel_iff_error (n : Net) (domain : string) :
  (forall stats, pinger n domain = RunReturns stats -> 0 <= AvgRtt stats) ->
  ((tping n domain).1 = -1 <-> (tping n domain).2 <> None).
Proof.
  intros Hrtt. unfold tping.
  destruct (pinger n domain) as [| |stats]; simpl; [done..|].
  destruct (0 <? PacketLoss stats)%float; simpl; [done|].
  specialize (Hrtt stats eq_refl). unfold Milliseconds.
  pose proof (Z.quot_pos (AvgRtt stats) 1000000 Hrtt ltac:(lia)).
  split; [lia|done].
Qed.

Lemma tping_sentinel_iff_error_witness :
  (tping xyzNet "x.test").1 = -1 <-> (tping xyzNet "x.test").2 <> None.
Proof.
  apply (tping_sentinel_iff_error xyzNet "x.test").
  intros stats [= <-]. simpl. lia.
Defined.

Lemma sumZ_between lo hi l :
  Forall (fun e => lo <= e <= hi) l ->
  Z.of_nat (length l) * lo <= sumZ l <= Z.of_nat (length l) * hi.
Proof. induction 1; simpl length; simpl sumZ; lia. Qed.

(** X2. A download that does not fail returns a value between the
    fastest and the slowest successful attempt, and never the failure
    value [-1]. *)
Theorem download_between_fastest_and_slowest (threads : Z) (n : Net) (domain : string)
    (lo hi : Z) :
  threads < 2 ^ 63 ->
  Forall (fun r => forall e, r = GetReturns e -> 0 <= e) (attempts threads n domain) ->
  sumZ (succeeded (attempts threads n domain)) < 2 ^ 63 ->
  ~ Forall (eq GetFails) (attempts threads n domain) ->
  Forall (fun e => lo <= e <= hi) (succeeded (attempts threads n domain)) ->
  (download threads n domain).2 = None /\
  lo <= (download threads n domain).1 <= hi /\
  (download threads n domain).1 <> -1.
Proof.
  intros Hthreads Hpos Hsum Hsome Hbounds.
  assert (Z.of_nat (length (attempts threads n domain)) < 2 ^ 63) as Hlen.
  { rewrite attempts_length. lia. }
  pose proof (download_recv_value _ _ Hlen Hpos Hsum (reflexivity _)) as Hval.
  fold (download threads n domain) in Hval.
  rewrite <- succeeded_nil_iff in Hsome. rewrite decide_False in Hval by done.
  rewrite Hval. simpl.
  pose proof (sumZ_between _ _ _ Hbounds) as [Hlo Hhi].
  pose proof (sumZ_nonneg _ (succeeded_nonneg _ Hpos)) as H0.
  assert (0 < Z.of_nat (length (succeeded (attempts threads n domain)))) as Hcnt.
  { destruct (succeeded (attempts threads n domain)); [done | simpl; lia]. }
  split; [done|]. split; [split|].
  - apply Z.div_le_lower_bound; lia.
  - apply Z.div_le_upper_bound; lia.
  - pose proof (Z.div_pos _ _ H0 Hcnt). lia.
Qed.

Lemma download_between_fastest_and_slowest_witness :
  10 <= (download 5 threeOfFive "a.test").1 <= 30.
Proof.
  refine (proj1 (proj2 (download_between_fastest_and_slowest 5 threeOfFive "a.test"
                          10 30 _ _ _ _ _))).
  - lia.
  - repeat constructor; intros e [= <-]; lia.
  - vm_compute. reflexivity.
  - intros Hall. inversion Hall. discriminate.
  - repeat constructor; lia.
Defined.

Lemma download_no_threads threads n domain :
  threads <= 0 -> download threads n domain = (-1, Some ErrNodeAbnormal).
Proof.
  intros Hthreads. unfold download, attempts.
  by replace (Z.to_nat threads) with 0%nat by lia.
Qed.

(** ** The measurement passes *)

Lemma probeAndDownload_name threads n d : Name (probeAndDownload threads n d) = Name d.
Proof.
  unfold probeAndDownload. destruct (tping n (Name d)) as [latency err].
  destruct (negb _); [|done]. simpl. by destruct (download _ _ _) as [speed [e|]].
Qed.

(** The flag after the goroutine body: it was set before, or the probe
    succeeded and the download failed. *)
Lemma probeAndDownload_flag threads n d :
  DownloadErr (probeAndDownload threads n d) = false <->
  DownloadErr d = false /\ kept threads n (Name d).
Proof.
  unfold probeAndDownload, kept. destruct (tping n (Name d)) as [latency err]. simpl.
  destruct (Z.eqb_spec latency (-1)) as [->|Hne]; simpl.
  - split; [intros ?; split; auto | by intros [? _]].
  - destruct (download threads n (Name d)) as [speed [e|]]; simpl.
    + split; [done|]. intros [_ [?|?]]; done.
    + split; [intros ?; split; auto | by intros [? _]].
Qed.

(** X3. With [-threads] at zero or below no download is attempted and
    [download] always fails, so every candidate whose probe succeeded is
    dropped: what [measureLatencyAndDownload] leaves has latency [-1]. *)
Theorem no_threads_keeps_only_failed_probes (threads : Z) (net : nat -> Net)
    (domains : list Domain) :
  threads <= 0 ->
  (forall n domain, download threads n domain = (-1, Some ErrNodeAbnormal)) /\
  (forall x, x ∈ measureLatencyAndDownload threads net domains -> Latency x = -1).
Proof.
  intros Hthreads. split; [intros; by apply download_no_threads|].
  intros x [Hflag Hx]%excludeDownloadError_elem_of.
  apply list_elem_of_lookup in Hx as [i Hi]. rewrite measured_lookup in Hi.
  destruct (domains !! i) as [d|]; [|done]. injection Hi as <-.
  apply probeAndDownload_flag in Hflag as [_ [Hprobe|Hdown]].
  - by rewrite probeAndDownload_latency.
  - by rewrite download_no_threads in Hdown.
Qed.

Lemma no_threads_keeps_only_failed_probes_witness :
  download 0 xyzNet "y.test" = (-1, Some ErrNodeAbnormal) /\
  Forall (fun x => Latency x = -1) (measureLatencyAndDownload 0 (fun _ => xyzNet) xyz).
Proof.
  destruct (no_threads_keeps_only_failed_probes 0 (fun _ => xyzNet) xyz) as [Hd Hm].
  - lia.
  - split; [apply Hd | by apply Forall_forall].
Defined.

(** X4. [measureLatencyAndDownload] neither adds, renames nor reorders
    candidates, and never brings back one whose [DownloadErr] was set
    on entry: the names it returns are, in order, among the names of the
    candidates that entered with the flag clear. *)
Theorem measure_keeps_names_order_and_flags (threads : Z) (net : nat -> Net)
    (domains : list Domain) :
  Name <$> measureLatencyAndDownload threads net domains
    `sublist_of` Name <$> excludeDownloadError domains.
Proof.
  unfold measureLatencyAndDownload, measured, excludeDownloadError.
  revert net. induction domains as [|d ds IH]; intros net; [done|].
  rewrite imap_cons, !filter_cons.
  specialize (IH (fun i => net (S i))).
  pose proof (probeAndDownload_flag threads (net 0%nat) d) as Hflag.
  destruct (decide (DownloadErr d = false)) as [Hd|Hd].
  - destruct (decide (DownloadErr (probeAndDownload threads (net 0%nat) d) = false)).
    + rewrite !fmap_cons, probeAndDownload_name. by apply sublist_skip.
    + rewrite fmap_cons. by apply sublist_cons.
  - rewrite decide_False; [done|]. intros H. apply Hflag in H as [? _]. done.
Qed.

Lemma updateDomainsLatency_names net domains :
  Name <$> updateDomainsLatency net domains = Name <$> domains.
Proof.
  apply list_eq. intros i.
  rewrite !list_lookup_fmap, updateDomainsLatency_lookup.
  by destruct (domains !! i).
Qed.


(** ** [findFastestDomain] and the refresh cycle *)

Lemma fresh_kept_iff threads n host :
  DownloadErr (probeAndDownload threads n (mkDomain host 0 0 false)) = false <->
  kept threads n host.
Proof. rewrite probeAndDownload_flag. simpl. split; [by intros [_ ?] | by split]. Qed.

(** The candidates a pass leaves, for the list read from a file. *)
Lemma measure_fresh_elem_of threads net lines x :
  x ∈ measureLatencyAndDownload threads net ((fun text => mkDomain text 0 0 false) <$> lines)
  <-> exists i host, lines !! i = Some host /\ kept threads (net i) host /\
                     x = probeAndDownload threads (net i) (mkDomain host 0 0 false).
Proof.
  unfold measureLatencyAndDownload. rewrite excludeDownloadError_elem_of, list_elem_of_lookup.
  split.
  - intros [Hflag [i Hi]]. rewrite measured_lookup, list_lookup_fmap in Hi.
    destruct (lines !! i) as [host|] eqn:Hl; [|done]. injection Hi as <-.
    exists i, host. by rewrite <- fresh_kept_iff.
  - intros (i & host & Hl & Hkept & ->). split; [by apply fresh_kept_iff|].
    exists i. by rewrite measured_lookup, list_lookup_fmap, Hl.
Qed.

(** X6. What [findFastestDomain] returns is a line of the file whose
    candidate was not dropped (its probe failed or its download
    succeeded), and no candidate that was not dropped has a lower
    latency. *)
Theorem findFastestDomain_returns_least_kept (threads : Z) (sorter : sort.Impl)
    (c : Cycle) (filename name : string) :
  findFastestDomain threads sorter c filename = Returns name ->
  exists lines i,
    files c !! filename = Some lines /\ lines !! i = Some name /\
    kept threads (netOf c filename i) name /\
    forall j host, lines !! j = Some host -> kept threads (netOf c filename j) host ->
                   (tping (netOf c filename i) name).1
                   <= (tping (netOf c filename j) host).1.
Proof.
  intros (lines & d & Hfile & Hd & ->)%findFastestDomain_Returns.
  pose proof Hd as Hin. apply list_elem_of_lookup_2 in Hin.
  unfold ranked in Hin. apply Sort_elem_of, measure_fresh_elem_of in Hin
    as (i & host & Hl & Hkept & ->).
  rewrite probeAndDownload_name. simpl.
  exists lines, i. repeat split; [done..|].
  intros j host' Hj Hkept'.
  pose proof (Sort_head_least sorter _ _
                (probeAndDownload threads (netOf c filename j) (mkDomain host' 0 0 false))
                Hd) as Hle.
  rewrite !probeAndDownload_latency in Hle. simpl in Hle. apply Hle.
  apply measure_fresh_elem_of. by exists j, host'.
Qed.

Lemma findFastestDomain_returns_least_kept_witness :
  exists lines i,
    files xyzCycle !! "multi.txt" = Some lines /\ lines !! i = Some "z.test" /\
    kept 32 xyzNet "z.test" /\
    forall j host, lines !! j = Some host -> kept 32 xyzNet host ->
                   (tping xyzNet "z.test").1 <= (tping xyzNet host).1.
Proof.
  apply (findFastestDomain_returns_least_kept 32 insertionImpl xyzCycle "multi.txt" "z.test").
  vm_compute. reflexivity.
Defined.

Lemma findFastestDomain_exit threads sorter c filename code :
  findFastestDomain threads sorter c filename = OsExit code <->
  code = 1 /\ files c !! filename = None.
Proof.
  unfold findFastestDomain, readDomainsFromFile.
  destruct (files c !! filename) as [lines|]; simpl.
  - destruct (ranked _ _ _ _); simpl; (split; [done | by intros [_ ?]]).
  - split; [by intros [= <-] | by intros [-> _]].
Qed.

(** X7. [findFastestDomain] stops the process in two ways only: with
    [os.Exit(1)] exactly when the file cannot be opened, and with a
    panic exactly when the file is read and every candidate of it is
    dropped (an empty file included). *)
Theorem findFastestDomain_failures (threads : Z) (sorter : sort.Impl) (c : Cycle)
    (filename : string) :
  (forall code, findFastestDomain threads sorter c filename = OsExit code <->
                code = 1 /\ files c !! filename = None) /\
  (findFastestDomain threads sorter c filename = Panics <->
   exists lines, files c !! filename = Some lines /\
                 forall i host, lines !! i = Some host ->
                                ~ kept threads (netOf c filename i) host).
Proof.
  split; [intros code; apply findFastestDomain_exit|].
  unfold findFastestDomain, readDomainsFromFile.
  destruct (files c !! filename) as [lines|] eqn:Hfile; simpl.
  - destruct (ranked _ _ _ _) as [|d ds] eqn:Hr; simpl.
    + split; [intros _|done]. exists lines. split; [done|]. intros i host Hi Hkept.
      unfold ranked in Hr. apply Sort_nil_iff in Hr.
      assert (probeAndDownload threads (netOf c filename i) (mkDomain host 0 0 false)
              ∈ measureLatencyAndDownload threads (netOf c filename)
                  ((fun text => mkDomain text 0 0 false) <$> lines)) as Hin.
      { apply measure_fresh_elem_of. by exists i, host. }
      rewrite Hr in Hin. by apply not_elem_of_nil in Hin.
    + split; [done|]. intros (lines' & [= <-] & Hnone).
      assert (d ∈ ranked threads sorter (netOf c filename)
                    ((fun text => mkDomain text 0 0 false) <$> lines)) as Hin.
      { rewrite Hr. apply list_elem_of_here. }
      unfold ranked in Hin. apply Sort_elem_of, measure_fresh_elem_of in Hin
        as (i & host & Hl & Hkept & _).
      by destruct (Hnone i host Hl).
  - split; [done|by intros (? & ? & _)].
Qed.

(** X8. [updateAndStoreFastestDomains] ends in [os.Exit] only with
    status 1, and exactly when the main list is not empty and either
    [multi.txt] cannot be opened, or [multi.txt] gave a name and
    [single.txt] cannot be opened. *)
Theorem refresh_exit_status (threads : Z) (sorter : sort.Impl) (c : Cycle)
    (g : Globals) (domains : list Domain) (code : Z) :
  (updateAndStoreFastestDomains threads sorter c g domains).1 = OsExit code <->
  code = 1 /\ domains <> [] /\
  (files c !! "multi.txt" = None \/
   (exists multi, findFastestDomain threads sorter c "multi.txt" = Returns multi) /\
   files c !! "single.txt" = None).
Proof.
  pose proof (findFastestDomain_exit threads sorter c "multi.txt") as Hm.
  pose proof (findFastestDomain_exit threads sorter c "single.txt") as Hs.
  unfold updateAndStoreFastestDomains.
  destruct (sort.Sort sorter _) as [|d ds] eqn:Hsort; simpl.
  { apply Sort_nil_iff in Hsort.
    assert (domains = []) as ->.
    { apply (f_equal length) in Hsort.
      rewrite updateDomainsLatency_length in Hsort. by destruct domains. }
    split; [done|]. by intros (_ & ? & _). }
  assert (domains <> []) as Hne.
  { intros ->. change (updateDomainsLatency (netAll c) []) with (@nil Domain) in Hsort.
    by rewrite (proj2 (Sort_nil_iff sorter []) eq_refl) in Hsort. }
  destruct (findFastestDomain threads sorter c "multi.txt") as [multi|code'|] eqn:Hmulti;
    simpl.
  - destruct (findFastestDomain threads sorter c "single.txt") as [single|code'|];
      simpl.
    + split; [done|]. intros (_ & _ & [Hno|[_ Hno]]).
      * discriminate (proj2 (Hm 1) (conj eq_refl Hno)).
      * discriminate (proj2 (Hs 1) (conj eq_refl Hno)).
    + split.
      * intros [= <-]. destruct (proj1 (Hs code') eq_refl) as [-> Hno]. eauto 10.
      * intros (-> & _ & _). f_equal. by destruct (proj1 (Hs code') eq_refl).
    + split; [done|]. intros (_ & _ & [Hno|[_ Hno]]).
      * discriminate (proj2 (Hm 1) (conj eq_refl Hno)).
      * discriminate (proj2 (Hs 1) (conj eq_refl Hno)).
  - split.
    + intros [= <-]. destruct (proj1 (Hm code') eq_refl) as [-> Hno]. auto.
    + intros (-> & _ & _). f_equal. by destruct (proj1 (Hm code') eq_refl).
  - split; [done|]. intros (_ & _ & [Hno|[[multi Hret] _]]); [|done].
    discriminate (proj2 (Hm 1) (conj eq_refl Hno)).
Qed.

(** ** The methods of [ByLatency] *)

(** X9. On the indices of the slice, [Less] is a strict weak order
    (irreflexive, asymmetric, transitive, and being neither way [Less]
    is transitive too), which is what [sort.Sort] requires of it. *)
Theorem Less_strict_weak_order (a : list Domain) (i j k : nat) :
  (i < ByLatency.Len a)%nat -> (j < ByLatency.Len a)%nat -> (k < ByLatency.Len a)%nat ->
  ByLatency.Less a i i = false /\
  (ByLatency.Less a i j = true -> ByLatency.Less a j i = false) /\
  (ByLatency.Less a i j = true -> ByLatency.Less a j k = true ->
   ByLatency.Less a i k = true) /\
  (ByLatency.Less a i j = false -> ByLatency.Less a j i = false ->
   ByLatency.Less a j k = false -> ByLatency.Less a k j = false ->
   ByLatency.Less a i k = false /\ ByLatency.Less a k i = false).
Proof.
  unfold ByLatency.Len. intros Hi Hj Hk.
  destruct (lookup_lt_is_Some_2 a i Hi) as [x Hx].
  destruct (lookup_lt_is_Some_2 a j Hj) as [y Hy].
  destruct (lookup_lt_is_Some_2 a k Hk) as [z Hz].
  rewrite (Less_lookup _ _ _ _ _ Hx Hx), (Less_lookup _ _ _ _ _ Hx Hy),
    (Less_lookup _ _ _ _ _ Hy Hx), (Less_lookup _ _ _ _ _ Hy Hz),
    (Less_lookup _ _ _ _ _ Hz Hy), (Less_lookup _ _ _ _ _ Hx Hz),
    (Less_lookup _ _ _ _ _ Hz Hx).
  unfold lowerLatency. rewrite !Z.ltb_lt, !Z.ltb_ge. lia.
Qed.

Lemma Less_strict_weak_order_witness :
  ByLatency.Less xyz 0 0 = false.
Proof.
  refine (proj1 (Less_strict_weak_order xyz 0 1 2 _ _ _)); simpl; lia.
Defined.

(** X10. For two indices of the slice, [Swap] exchanges the two elements,
    leaves every other element and the length as they are, and undoes
    itself when applied again. *)
Theorem Swap_exchanges (a : list Domain) (i j : nat) :
  (i < ByLatency.Len a)%nat -> (j < ByLatency.Len a)%nat ->
  ByLatency.Len (ByLatency.Swap a i j) = ByLatency.Len a /\
  ByLatency.Swap a i j !! i = a !! j /\
  ByLatency.Swap a i j !! j = a !! i /\
  (forall k, k <> i -> k <> j -> ByLatency.Swap a i j !! k = a !! k) /\
  ByLatency.Swap (ByLatency.Swap a i j) i j = a.
Proof.
  unfold ByLatency.Len. intros Hi Hj.
  destruct (lookup_lt_is_Some_2 a i Hi) as [x Hx].
  destruct (lookup_lt_is_Some_2 a j Hj) as [y Hy].
  assert (ByLatency.Swap a i j = <[i:=y]> (<[j:=x]> a)) as Hswap.
  { unfold ByLatency.Swap. by rewrite Hx, Hy. }
  assert (ByLatency.Swap a i j !! i = Some y) as Hsi.
  { rewrite Hswap. apply list_lookup_insert_eq. by rewrite length_insert. }
  assert (ByLatency.Swap a i j !! j = Some x) as Hsj.
  { rewrite Hswap. destruct (decide (i = j)) as [->|Hij].
    - rewrite list_lookup_insert_eq by (by rewrite length_insert). congruence.
    - rewrite list_lookup_insert_ne by done. by apply list_lookup_insert_eq. }
  assert (forall k, k <> i -> k <> j -> ByLatency.Swap a i j !! k = a !! k) as Hsk.
  { intros k Hki Hkj. rewrite Hswap. by rewrite !list_lookup_insert_ne. }
  split; [by rewrite Hswap, !length_insert|].
  split; [congruence|]. split; [congruence|]. split; [done|].
  unfold ByLatency.Swap at 1. rewrite Hsi, Hsj.
  apply list_eq. intros k.
  destruct (decide (k = i)) as [->|Hki].
  - rewrite list_lookup_insert_eq; [done|]. by rewrite !length_insert, Hswap, !length_insert.
  - rewrite list_lookup_insert_ne by done.
    destruct (decide (k = j)) as [->|Hkj].
    + rewrite list_lookup_insert_eq; [done|]. by rewrite Hswap, !length_insert.
    + rewrite list_lookup_insert_ne by done. by apply Hsk.
Qed.

Lemma Swap_exchanges_witness :
  ByLatency.Swap (ByLatency.Swap xyz 0 2) 0 2 = xyz.
Proof.
  refine (proj2 (proj2 (proj2 (proj2 (Swap_exchanges xyz 0 2 _ _))))); simpl; lia.
Defined.

(** ** The process, further *)

Lemma step_stopped sorter e p x : loc p = Stopped x -> step sorter e p = p.
Proof. intros Hloc. unfold step. by rewrite Hloc. Qed.

(** X11. [main] ends before anything is measured in two cases: with the
    version flag it exits with status 0, and when the list file cannot
    be opened it exits with status 1; the variables keep their zero
    values. *)
Theorem main_exits_before_measuring (sorter : sort.Impl) (e : Env) (n : nat) :
  (1 <= n)%nat ->
  (flagVersion e = true -> run sorter e n = stop initial (Some 0)) /\
  (flagVersion e = false -> files (cycle e 0%nat) !! flagFile e = None ->
   run sorter e n = stop initial (Some 1)).
Proof.
  intros Hn. induction Hn as [|n Hn [IHv IHf]].
  - split.
    + intros Hv. unfold run. simpl. unfold step. simpl. by rewrite Hv.
    + intros Hv Hfile. unfold run. simpl. unfold step, readDomainsFromFile. simpl.
      by rewrite Hv, Hfile.
  - split.
    + intros Hv. rewrite run_S, (IHv Hv). by apply (step_stopped _ _ _ (Some 0)).
    + intros Hv Hfile. rewrite run_S, (IHf Hv Hfile).
      by apply (step_stopped _ _ _ (Some 1)).
Qed.

Lemma main_exits_before_measuring_witness :
  run insertionImpl versionEnv 5 = stop initial (Some 0).
Proof.
  refine (proj1 (main_exits_before_measuring insertionImpl versionEnv 5 _) eq_refl). lia.
Defined.

Lemma step_accounted sorter e p : accounted e p -> accounted e (step sorter e p).
Proof.
  unfold accounted at 1, step. destruct (loc p) as [|k|k|x] eqn:Hloc.
  - intros Hr. destruct (flagVersion e); [done|].
    destruct (readDomainsFromFile _ _) as [ds| |]; [|done..].
    destruct (refresh_cases sorter e 0 p ds) as [(g & ds' & ->)|(x & g & ds' & ->)];
      [|done].
    unfold accounted. simpl. split; [by rewrite Hr|]. intros j Hj. lia.
  - intros [Hr Hall]. destruct (ginRunReturns e k) eqn:Hrun.
    + unfold accounted. simpl. split; [done|]. intros j Hj.
      destruct (decide (j = k)) as [->|]; [done|]. apply Hall. lia.
    + unfold accounted. by rewrite Hloc.
  - intros [Hr Hall].
    destruct (refresh_cases sorter e k p (domains p))
      as [(g & ds' & ->)|(x & g & ds' & ->)]; [|done].
    unfold accounted. simpl. split; [by rewrite Hr|done].
  - intros _. unfold accounted. by rewrite Hloc.
Qed.

(** X12. When the main goroutine is in its [k]-th [startGinServer()]
    (counted from 0), exactly [k + 1] refresh cycles have completed and
    every earlier [r.Run] has returned: a further cycle runs only after
    the server before it has failed. *)
Theorem cycles_follow_server_failures (sorter : sort.Impl) (e : Env) (n k : nat) :
  loc (run sorter e n) = InGinRun k ->
  refreshes (run sorter e n) = S k /\
  forall j, (j < k)%nat -> ginRunReturns e j = true.
Proof.
  assert (accounted e (run sorter e n)) as Hacc.
  { induction n as [|n IH]; [done|]. rewrite run_S. by apply step_accounted. }
  intros Hloc. unfold accounted in Hacc. by rewrite Hloc in Hacc.
Qed.

Lemma cycles_follow_server_failures_witness :
  refreshes (run insertionImpl failingServerEnv 3) = 2%nat.
Proof.
  refine (proj1 (cycles_follow_server_failures insertionImpl failingServerEnv 3 1 _)).
  vm_compute. reflexivity.
Defined.

(** ** Strings *)

Lemma str_app_cons c s t : String c s +:+ t = String c (s +:+ t).
Proof. reflexivity. Qed.

Lemma str_app_assoc a b c : (a +:+ b) +:+ c = a +:+ (b +:+ c).
Proof.
  induction a as [|ch a IH]; [done|].
  rewrite !str_app_cons. by rewrite IH.
Qed.

Lemma str_length_app a b :
  String.length (a +:+ b) = (String.length a + String.length b)%nat.
Proof.
  induction a as [|ch a IH]; [done|].
  rewrite str_app_cons. simpl. by rewrite IH.
Qed.

Lemma prefix_nil s : String.prefix EmptyString s = true.
Proof. by destruct s. Qed.

Lemma prefix_cons a s1 b s2 :
  String.prefix (String a s1) (String b s2)
  = if ascii_dec a b then String.prefix s1 s2 else false.
Proof. reflexivity. Qed.

Lemma prefix_app old post : String.prefix old (old +:+ post) = true.
Proof.
  induction old as [|a old IH]; [apply prefix_nil|].
  rewrite str_app_cons, prefix_cons. by destruct (ascii_dec a a).
Qed.

Lemma strSkip_app old post : strSkip (String.length old) (old +:+ post) = post.
Proof. induction old as [|a old IH]; [done|]. by rewrite str_app_cons. Qed.

(** A prefix of [A +:+ B] that is no longer than [A] is a prefix of [A]. *)
Lemma prefix_shorten pat A B :
  String.prefix pat (A +:+ B) = true ->
  (String.length pat <= String.length A)%nat ->
  String.prefix pat A = true.
Proof.
  revert A. induction pat as [|a pat IH]; intros A Hp Hlen; [apply prefix_nil|].
  destruct A as [|b A]; [simpl in Hlen; lia|].
  rewrite str_app_cons, prefix_cons in Hp. rewrite prefix_cons.
  destruct (ascii_dec a b); [|done]. apply IH; [done|]. simpl in Hlen. lia.
Qed.

Lemma Replace1_unfold s old new :
  Replace1 s old new =
  if String.prefix old s then new +:+ strSkip (String.length old) s
  else match s with
       | EmptyString => EmptyString
       | String c s' => String c (Replace1 s' old new)
       end.
Proof. by destruct s. Qed.

Lemma Contains_unfold s substr :
  Contains s substr =
  String.prefix substr s ||
  match s with
  | EmptyString => false
  | String _ s' => Contains s' substr
  end.
Proof. by destruct s. Qed.

(** Without an occurrence nothing is replaced. *)
Lemma Replace1_absent s old new : Contains s old = false -> Replace1 s old new = s.
Proof.
  induction s as [|c s IH]; rewrite Replace1_unfold, Contains_unfold;
    intros [Hp Hc]%orb_false_iff; rewrite Hp; [done|]. by rewrite IH.
Qed.

(** The occurrence after [pre] is the first one when [old] does not occur
    in [pre] followed by [old] less its last character. *)
Lemma Replace1_first pre p1 ch post new :
  Contains (pre +:+ p1) (p1 +:+ String ch EmptyString) = false ->
  Replace1 (pre +:+ (p1 +:+ String ch EmptyString) +:+ post)
           (p1 +:+ String ch EmptyString) new
  = pre +:+ new +:+ post.
Proof.
  induction pre as [|c pre IH]; intros Hc.
  - change (EmptyString +:+ ?x) with x. rewrite Replace1_unfold.
    by rewrite prefix_app, strSkip_app.
  - rewrite !str_app_cons in *. rewrite Contains_unfold in Hc.
    apply orb_false_iff in Hc as [Hp Hc].
    rewrite Replace1_unfold.
    destruct (String.prefix (p1 +:+ String ch EmptyString)
                (String c (pre +:+ (p1 +:+ String ch EmptyString) +:+ post))) eqn:Hp'.
    + assert (String.prefix (p1 +:+ String ch EmptyString) (String c (pre +:+ p1)) = true)
        as Hshort; [|congruence].
      apply (prefix_shorten _ (String c (pre +:+ p1)) (String ch EmptyString +:+ post)).
      * by rewrite str_app_cons, !str_app_assoc in *.
      * simpl. rewrite !str_length_app. simpl. lia.
    + by rewrite IH.
Qed.

(** The same, for a string and a pattern given up to the grouping of
    their parts. *)
Lemma Replace1_at s old new pre p1 ch post k :
  old = p1 +:+ String ch EmptyString ->
  s = pre +:+ old +:+ post ->
  k = pre +:+ p1 ->
  Contains k old = false ->
  Replace1 s old new = pre +:+ new +:+ post.
Proof. intros -> -> ->. apply Replace1_first. Qed.

Lemma strHas_app c a b : strHas c (a +:+ b) = strHas c a || strHas c b.
Proof.
  induction a as [|ch a IH]; [done|].
  rewrite str_app_cons. simpl. by rewrite IH, orb_assoc.
Qed.

Lemma strBefore_app stop h t :
  strHas stop h = false -> strBefore stop (h +:+ String stop t) = h.
Proof.
  induction h as [|c h IH]; simpl.
  - intros _. change (EmptyString +:+ ?x) with x. simpl. by rewrite Ascii.eqb_refl.
  - intros [Hc Hh]%orb_false_iff. rewrite ?str_app_cons. simpl. by rewrite Hc, IH.
Qed.

Lemma strFrom_app stop h t :
  strHas stop h = false -> strFrom stop (h +:+ String stop t) = String stop t.
Proof.
  induction h as [|c h IH]; simpl.
  - intros _. change (EmptyString +:+ ?x) with x. simpl. by rewrite Ascii.eqb_refl.
  - intros [Hc Hh]%orb_false_iff. rewrite ?str_app_cons. simpl. by rewrite Hc, IH.
Qed.

Lemma strBefore_absent stop s : strHas stop s = false -> strBefore stop s = s.
Proof.
  induction s as [|c s IH]; simpl; [done|].
  intros [Hc Hs]%orb_false_iff. by rewrite Hc, IH.
Qed.

(** Brings both sides of an equation between strings to the same
    grouping. *)
Ltac str_norm := rewrite ?str_app_assoc; reflexivity.

(** Rewrites the [Replace1] of the goal whose string is [pre], the
    pattern [p1] and [ch], and [post]; what is left to show is that the
    pattern has no earlier occurrence. *)
Ltac replace1_at old new pre p1 ch post :=
  match goal with
  | |- context [Replace1 ?s old new] =>
      rewrite (Replace1_at s old new pre p1 ch post (pre +:+ p1)
                 eq_refl ltac:(str_norm) eq_refl)
  end.

(** ** [buildRedirectURI] *)

(** X13. When none of [projects], [/download] and [/files] occurs in the
    assembled URI, [buildRedirectURI] returns it as assembled: the
    scheme, the domain, a slash, the path and [?viasf=1]. *)
Theorem buildRedirectURI_plain (path domain : string) :
  Contains ("https://" +:+ domain +:+ "/" +:+ path +:+ "?viasf=1") "projects" = false ->
  Contains ("https://" +:+ domain +:+ "/" +:+ path +:+ "?viasf=1") "/download" = false ->
  Contains ("https://" +:+ domain +:+ "/" +:+ path +:+ "?viasf=1") "/files" = false ->
  buildRedirectURI path domain = "https://" +:+ domain +:+ "/" +:+ path +:+ "?viasf=1".
Proof.
  intros H1 H2 H3. unfold buildRedirectURI. cbv zeta.
  by rewrite (Replace1_absent _ _ _ H1), (Replace1_absent _ _ _ H2),
    (Replace1_absent _ _ _ H3).
Qed.

Lemma buildRedirectURI_plain_witness :
  buildRedirectURI "project/sevenzip/7-Zip/23.01/7zr.exe" "z.test"
  = "https://z.test/project/sevenzip/7-Zip/23.01/7zr.exe?viasf=1".
Proof.
  apply (buildRedirectURI_plain "project/sevenzip/7-Zip/23.01/7zr.exe" "z.test");
    vm_compute; reflexivity.
Defined.

(** The three replacements on the path of a download link. *)
Lemma download_link_rewrite (domain P F : string) :
  Contains ("https://" +:+ domain +:+ "/project") "projects" = false ->
  Contains ("https://" +:+ domain +:+ "/project/" +:+ P +:+ "/files/" +:+ F +:+ "/downloa")
           "/download" = false ->
  Contains ("https://" +:+ domain +:+ "/project/" +:+ P +:+ "/file") "/files" = false ->
  buildRedirectURI ("projects/" +:+ P +:+ "/files/" +:+ F +:+ "/download") domain
  = "https://" +:+ domain +:+ "/project/" +:+ P +:+ "/" +:+ F +:+ "?viasf=1".
Proof.
  intros H1 H2 H3. unfold buildRedirectURI. cbv zeta.
  replace1_at "projects" "project" ("https://" +:+ domain +:+ "/") "project" "s"%char
    ("/" +:+ P +:+ "/files/" +:+ F +:+ "/download" +:+ "?viasf=1");
    [|etrans; [|exact H1]; f_equal; str_norm].
  replace1_at "/download" EmptyString
    ("https://" +:+ domain +:+ "/project/" +:+ P +:+ "/files/" +:+ F) "/downloa" "d"%char
    "?viasf=1";
    [|etrans; [|exact H2]; f_equal; str_norm].
  replace1_at "/files" EmptyString
    ("https://" +:+ domain +:+ "/project/" +:+ P) "/file" "s"%char
    ("/" +:+ F +:+ "?viasf=1");
    [|etrans; [|exact H3]; f_equal; str_norm].
  str_norm.
Qed.

(** X14. The path of a download link, [projects/P/files/F/download],
    becomes [project/P/F] on the chosen domain, provided the three
    patterns have no earlier occurrence (in the domain, in [P] or in [F])
    than the one the link has by its form. *)
Theorem buildRedirectURI_download_link (domain P F : string) :
  Contains ("https://" +:+ domain +:+ "/project") "projects" = false ->
  Contains ("https://" +:+ domain +:+ "/project/" +:+ P +:+ "/files/" +:+ F +:+ "/downloa")
           "/download" = false ->
  Contains ("https://" +:+ domain +:+ "/project/" +:+ P +:+ "/file") "/files" = false ->
  buildRedirectURI ("projects/" +:+ P +:+ "/files/" +:+ F +:+ "/download") domain
  = "https://" +:+ domain +:+ "/project/" +:+ P +:+ "/" +:+ F +:+ "?viasf=1".
Proof. apply download_link_rewrite. Qed.

Lemma buildRedirectURI_download_link_witness :
  buildRedirectURI "projects/sevenzip/files/7-Zip/23.01/7zr.exe/download" "z.test"
  = "https://z.test/project/sevenzip/7-Zip/23.01/7zr.exe?viasf=1".
Proof.
  apply (buildRedirectURI_download_link "z.test" "sevenzip" "7-Zip/23.01/7zr.exe");
    vm_compute; reflexivity.
Defined.

(** X15. The replacements act on the whole URI, the domain included.
    For a domain that begins with [download], the [/download] that is
    deleted is the slash before the domain together with that word, not
    the end of the link: the download link [projects/P/files/F/download]
    becomes [https:/], the rest of the domain, and [/project/P/F/download],
    provided [projects] does not occur earlier than in the path and
    [/files] does not occur earlier than after [P]. *)
Theorem buildRedirectURI_rewrites_host (rest P F : string) :
  Contains (rest +:+ "/project") "projects" = false ->
  Contains ("/" +:+ rest +:+ "/project/" +:+ P +:+ "/file") "/files" = false ->
  buildRedirectURI ("projects/" +:+ P +:+ "/files/" +:+ F +:+ "/download")
                   ("download" +:+ rest)
  = "https:/" +:+ rest +:+ "/project/" +:+ P +:+ "/" +:+ F +:+ "/download?viasf=1".
Proof.
  intros H1 H3. unfold buildRedirectURI. cbv zeta.
  replace1_at "projects" "project" ("https://" +:+ ("download" +:+ rest) +:+ "/")
    "project" "s"%char ("/" +:+ P +:+ "/files/" +:+ F +:+ "/download" +:+ "?viasf=1");
    [|etrans; [|exact H1]; rewrite ?str_app_assoc; reflexivity].
  replace1_at "/download" EmptyString "https:/" "/downloa" "d"%char
    (rest +:+ "/project/" +:+ P +:+ "/files/" +:+ F +:+ "/download?viasf=1");
    [|reflexivity].
  replace1_at "/files" EmptyString ("https:/" +:+ rest +:+ "/project/" +:+ P)
    "/file" "s"%char ("/" +:+ F +:+ "/download?viasf=1");
    [|etrans; [|exact H3]; rewrite ?str_app_assoc; reflexivity].
  str_norm.
Qed.

Lemma buildRedirectURI_rewrites_host_witness :
  buildRedirectURI "projects/sevenzip/files/7-Zip/23.01/7zr.exe/download"
                   "downloads.sourceforge.net"
  = "https:/s.sourceforge.net/project/sevenzip/7-Zip/23.01/7zr.exe/download?viasf=1".
Proof.
  apply (buildRedirectURI_rewrites_host "s.sourceforge.net" "sevenzip"
           "7-Zip/23.01/7zr.exe"); vm_compute; reflexivity.
Defined.

(** When the rest of such a domain begins with [files], the third
    replacement deletes in the domain as well. *)
Example buildRedirectURI_downloadfiles :
  buildRedirectURI "x" "downloadfiles.net" = "https:.net/x?viasf=1".
Proof. evaluate. Qed.

(** ** [extractDomainAndPath] and the handlers *)

Lemma FindStringSubmatch_unfold uri :
  FindStringSubmatch uri =
  match submatchHere uri with
  | Some groups => Some groups
  | None =>
      match uri with
      | EmptyString => None
      | String _ uri' => FindStringSubmatch uri'
      end
  end.
Proof. by destruct uri. Qed.

Lemma submatchHere_no_scheme s :
  String.prefix "https://" s = false -> submatchHere s = None.
Proof. unfold submatchHere. by intros ->. Qed.

(** At [https://], a host without [/], a [/] and a path without line
    feed, the match is the host and the path. *)
Lemma submatchHere_match host path :
  host <> EmptyString -> strHas "/" host = false ->
  path <> EmptyString -> strHas "010" path = false ->
  submatchHere ("https://" +:+ host +:+ "/" +:+ path) = Some (host, path).
Proof.
  intros Hhost Hslash Hpath Hlf. unfold submatchHere.
  rewrite prefix_app.
  change 8%nat with (String.length "https://"). rewrite strSkip_app.
  change ("/" +:+ path) with (String "/" path).
  rewrite (strBefore_app _ _ _ Hslash), (strFrom_app _ _ _ Hslash).
  rewrite (strBefore_absent _ _ Hlf).
  destruct host as [|c host]; [done|]. by destruct path.
Qed.

(** Where [https://] does not occur, nothing matches. *)
Lemma FindStringSubmatch_absent uri :
  Contains uri "https://" = false -> FindStringSubmatch uri = None.
Proof.
  induction uri as [|c uri IH]; rewrite FindStringSubmatch_unfold, Contains_unfold;
    intros [Hp Hc]%orb_false_iff; rewrite (submatchHere_no_scheme _ Hp); [done|].
  by apply IH.
Qed.

(** What stands before the first [https://] is passed over. *)
Lemma FindStringSubmatch_lead lead rest :
  Contains (lead +:+ "https:/") "https://" = false ->
  FindStringSubmatch (lead +:+ "https://" +:+ rest)
  = FindStringSubmatch ("https://" +:+ rest).
Proof.
  induction lead as [|c lead IH]; [done|].
  rewrite !str_app_cons, Contains_unfold. intros [Hp Hc]%orb_false_iff.
  rewrite FindStringSubmatch_unfold, submatchHere_no_scheme; [by apply IH|].
  destruct (String.prefix "https://" (String c (lead +:+ "https://" +:+ rest))) eqn:Hp';
    [|done].
  assert (String.prefix "https://" (String c (lead +:+ "https:/")) = true) as Hshort;
    [|congruence].
  apply (prefix_shorten _ (String c (lead +:+ "https:/")) ("/" +:+ rest)).
  - etrans; [|exact Hp']. f_equal. rewrite str_app_cons. f_equal. str_norm.
  - simpl. rewrite str_length_app. simpl. lia.
Qed.

(** The match behind a lead without [https://]. *)
Lemma extract_after_lead (lead host path : string) :
  Contains (lead +:+ "https:/") "https://" = false ->
  host <> EmptyString -> strHas "/" host = false ->
  path <> EmptyString -> strHas "010" path = false ->
  extractDomainAndPath (lead +:+ "https://" +:+ host +:+ "/" +:+ path) = (host, path).
Proof.
  intros Hlead Hhost Hslash Hpath Hlf. unfold extractDomainAndPath.
  rewrite (FindStringSubmatch_lead _ _ Hlead), FindStringSubmatch_unfold.
  by rewrite (submatchHere_match _ _ Hhost Hslash Hpath Hlf).
Qed.

(** X16. From a request value that holds, after anything without
    [https://], the scheme, a host without [/], a [/] and a path without
    line feed, [extractDomainAndPath] returns that host and that path. *)
Theorem extractDomainAndPath_round_trip (lead host path : string) :
  Contains (lead +:+ "https:/") "https://" = false ->
  host <> EmptyString -> strHas "/" host = false ->
  path <> EmptyString -> strHas "010" path = false ->
  extractDomainAndPath (lead +:+ "https://" +:+ host +:+ "/" +:+ path) = (host, path).
Proof. apply extract_after_lead. Qed.

Lemma extractDomainAndPath_round_trip_witness :
  extractDomainAndPath "/https://sourceforge.net/projects/sevenzip/files/7zr.exe/download"
  = ("sourceforge.net", "projects/sevenzip/files/7zr.exe/download").
Proof.
  apply (extractDomainAndPath_round_trip "/" "sourceforge.net"
           "projects/sevenzip/files/7zr.exe/download"); by vm_compute.
Defined.

(** X17. A request value in which [https://] does not occur gives the
    empty domain and the empty path, and the handler goes on to redirect
    with the empty path. *)
Theorem handler_unparsable (r : Route) (g : Globals) (param : string) :
  Contains param "https://" = false ->
  extractDomainAndPath param = (EmptyString, EmptyString) /\
  handler r g param = buildRedirectURI EmptyString (handlerDomain r g).
Proof.
  intros Habsent. unfold handler, extractDomainAndPath.
  by rewrite (FindStringSubmatch_absent _ Habsent).
Qed.

Lemma handler_unparsable_witness :
  handler RouteAll (mkGlobals "m.test" "s.test" "z.test") "/http://sourceforge.net/x"
  = "https://z.test/?viasf=1".
Proof.
  refine (eq_trans (proj2 (handler_unparsable RouteAll (mkGlobals "m.test" "s.test" "z.test")
                             "/http://sourceforge.net/x" _)) _); vm_compute; reflexivity.
Defined.

(** X18. A request for the download link of file [F] of project [P] on
    any host is redirected to [project/P/F] on the domain stored for the
    route; the host of the request plays no part. *)
Theorem handler_redirects_download_link (r : Route) (g : Globals) (host P F : string) :
  host <> EmptyString -> strHas "/" host = false ->
  strHas "010" P = false -> strHas "010" F = false ->
  Contains ("https://" +:+ handlerDomain r g +:+ "/project") "projects" = false ->
  Contains ("https://" +:+ handlerDomain r g +:+ "/project/" +:+ P +:+ "/files/" +:+ F
              +:+ "/downloa") "/download" = false ->
  Contains ("https://" +:+ handlerDomain r g +:+ "/project/" +:+ P +:+ "/file")
           "/files" = false ->
  handler r g ("/https://" +:+ host +:+ "/projects/" +:+ P +:+ "/files/" +:+ F
                 +:+ "/download")
  = "https://" +:+ handlerDomain r g +:+ "/project/" +:+ P +:+ "/" +:+ F +:+ "?viasf=1".
Proof.
  intros Hhost Hslash HP HF H1 H2 H3. unfold handler.
  replace ("/https://" +:+ host +:+ "/projects/" +:+ P +:+ "/files/" +:+ F +:+ "/download")
    with ("/" +:+ "https://" +:+ host +:+ "/"
            +:+ ("projects/" +:+ P +:+ "/files/" +:+ F +:+ "/download")) by str_norm.
  rewrite extract_after_lead; [by apply download_link_rewrite|done..| |].
  - by destruct P.
  - by rewrite !strHas_app, HP, HF.
Qed.

Lemma handler_redirects_download_link_witness :
  handler RouteAll (mkGlobals "m.test" "s.test" "z.test")
    "/https://sourceforge.net/projects/sevenzip/files/7-Zip/23.01/7zr.exe/download"
  = "https://z.test/project/sevenzip/7-Zip/23.01/7zr.exe?viasf=1".
Proof.
  apply (handler_redirects_download_link RouteAll (mkGlobals "m.test" "s.test" "z.test")
           "sourceforge.net" "sevenzip" "7-Zip/23.01/7zr.exe"); by vm_compute.
Defined.

(** ** The main list across cycles *)

Lemma refresh_names sorter e k p ds lines :
  Name <$> ds ≡ₚ lines ->
  Name <$> domains (refresh sorter e k p ds) ≡ₚ lines.
Proof.
  intros Hds.
  assert (domains (refresh sorter e k p ds)
          = sort.Sort sorter (updateDomainsLatency (netAll (cycle e k)) ds)) as ->.
  { rewrite <- (updateAndStoreFastestDomains_slice (flagThreads e) sorter (cycle e k)
                  (globals p) ds).
    unfold refresh.
    by destruct (updateAndStoreFastestDomains _ _ _ _ _) as [[[]| |] [g ds']]. }
  by rewrite (sort.Sort_perm sorter), updateDomainsLatency_names.
Qed.

Lemma step_namesKept sorter e lines p :
  files (cycle e 0%nat) !! flagFile e = Some lines ->
  namesKept lines p -> namesKept lines (step sorter e p).
Proof.
  intros Hfile Hp.
  assert (Name <$> ((fun text => mkDomain text 0 0 false) <$> lines) ≡ₚ lines) as Hfresh.
  { rewrite <- list_fmap_compose. by rewrite list_fmap_id. }
  assert (forall x, namesKept lines (stop p x)) as Hstop.
  { intros x. destruct Hp as [[_ Hr]|[[Hr Hn]|(y & _ & Hr)]].
    - right; right. by exists x.
    - right; left. by split.
    - right; right. by exists x. }
  unfold step. destruct (loc p) as [|k|k|x] eqn:Hloc.
  - destruct (flagVersion e); [apply Hstop|].
    unfold readDomainsFromFile. rewrite Hfile.
    pose proof (refresh_names sorter e 0 p _ lines Hfresh) as Hok.
    destruct Hp as [[_ Hr]|[[Hr Hn]|(y & ? & _)]]; [| |congruence].
    + destruct (refresh_cases sorter e 0 p ((fun text => mkDomain text 0 0 false) <$> lines))
        as [(g & ds' & Heq)|(x & g & ds' & Heq)]; rewrite Heq in *;
        unfold namesKept; simpl in *.
      * right; left. split; [lia|done].
      * right; right. by exists x.
    + destruct (refresh_cases sorter e 0 p ((fun text => mkDomain text 0 0 false) <$> lines))
        as [(g & ds' & Heq)|(x & g & ds' & Heq)]; rewrite Heq in *;
        unfold namesKept; simpl in *; right; left; (split; [lia|done]).
  - destruct Hp as [[? _]|[[Hr Hn]|(y & ? & _)]]; [congruence| |congruence].
    destruct (ginRunReturns e k); right; left; by split.
  - destruct Hp as [[? _]|[[Hr Hn]|(y & ? & _)]]; [congruence| |congruence].
    pose proof (refresh_names sorter e k p (domains p) lines Hn) as Hok.
    destruct (refresh_cases sorter e k p (domains p))
      as [(g & ds' & Heq)|(x & g & ds' & Heq)]; rewrite Heq in *;
      unfold namesKept; simpl in *; right; left; (split; [lia|done]).
  - exact Hp.
Qed.

(** X19. The main list is read once and never filtered: after every
    completed cycle the slice that [main] keeps holds exactly the hosts
    of the list file read at startup, each as often as the file names
    it. *)
Theorem main_list_keeps_every_host (sorter : sort.Impl) (e : Env) (lines : list string)
    (n : nat) :
  files (cycle e 0%nat) !! flagFile e = Some lines ->
  (1 <= refreshes (run sorter e n))%nat ->
  Name <$> domains (run sorter e n) ≡ₚ lines.
Proof.
  intros Hfile.
  assert (namesKept lines (run sorter e n)) as Hinv.
  { induction n as [|n IH]; [by left|]. rewrite run_S. by apply step_namesKept. }
  intros Hr. destruct Hinv as [[_ H0]|[[_ Hn]|(x & _ & H0)]]; [lia|done|lia].
Qed.

Lemma main_list_keeps_every_host_witness :
  Name <$> domains (run insertionImpl failingServerEnv 3) ≡ₚ ["x.test"; "y.test"; "z.test"].
Proof.
  apply (main_list_keeps_every_host insertionImpl failingServerEnv
           ["x.test"; "y.test"; "z.test"] 3).
  - vm_compute. reflexivity.
  - vm_compute. lia.
Defined.
